(** * Clusters_map: a shallow embedding of [main.py]

    The program asks [fsutil] for the extents of the files of an NTFS volume,
    keeps them in a dictionary from paths to lists of inclusive cluster ranges,
    and shows a window of clusters around the ranges of one file.  The
    definitions below follow the functions of [main.py] one by one; Python
    integers are [Z], the set [loaded_clusters] is a [gset Z], and the
    dictionary [file_clusters_map] is an association list in insertion order
    (the order [dict.items()] iterates in). *)

From Stdlib Require Import ZArith Lia List Bool Strings.Byte Ascii String.
From stdpp Require Import base decidable option list list_numbers gmap sets fin_sets strings.

Local Open Scope Z_scope.
#[local] Set Warnings "-clear-no-such-hyp".

(** ** Exceptions *)

Inductive exn : Type :=
  | ValueError
  | IndexError
  | TypeError
  | OSError.

Inductive PyResult (A : Type) : Type :=
  | Ok (a : A)
  | Raise (e : exn).
Arguments Ok {A} a.
Arguments Raise {A} e.

#[global] Instance result_ret : MRet PyResult := fun _ a => Ok a.
#[global] Instance result_bind : MBind PyResult := fun _ _ f r =>
  match r with
  | Ok a => f a
  | Raise e => Raise e
  end.

(** ** Python strings, as lists of code points *)

Module PyStr.

Definition pystr : Type := list Z.

(** An ASCII literal of the source. *)
Definition lit (s : string) : pystr :=
  (fun b => Z.of_N (Byte.to_N b)) <$> list_byte_of_string s.

(** The upper half of code page 866 ([bytes.decode('cp866')]); the lower half
    is ASCII.  Every byte decodes, so decoding never raises. *)
Definition cp866_high : list Z :=
  [ 1040; 1041; 1042; 1043; 1044; 1045; 1046; 1047;
    1048; 1049; 1050; 1051; 1052; 1053; 1054; 1055;
    1056; 1057; 1058; 1059; 1060; 1061; 1062; 1063;
    1064; 1065; 1066; 1067; 1068; 1069; 1070; 1071;
    1072; 1073; 1074; 1075; 1076; 1077; 1078; 1079;
    1080; 1081; 1082; 1083; 1084; 1085; 1086; 1087;
    9617; 9618; 9619; 9474; 9508; 9569; 9570; 9558;
    9557; 9571; 9553; 9559; 9565; 9564; 9563; 9488;
    9492; 9524; 9516; 9500; 9472; 9532; 9566; 9567;
    9562; 9556; 9577; 9574; 9568; 9552; 9580; 9575;
    9576; 9572; 9573; 9561; 9560; 9554; 9555; 9579;
    9578; 9496; 9484; 9608; 9604; 9612; 9616; 9600;
    1088; 1089; 1090; 1091; 1092; 1093; 1094; 1095;
    1096; 1097; 1098; 1099; 1100; 1101; 1102; 1103;
    1025; 1105; 1028; 1108; 1031; 1111; 1038; 1118;
    176; 8729; 183; 8730; 8470; 164; 9632; 160 ].

Definition cp866_char (b : byte) : Z :=
  let n := Z.of_N (Byte.to_N b) in
  if n <? 128 then n else nth (Z.to_nat (n - 128)) cp866_high 0.

Definition decode_cp866 (bs : list byte) : pystr := cp866_char <$> bs.

(** [str.isspace] for one character: the white space of [str.strip()] and
    [str.split()] without arguments. *)
Definition isspace (c : Z) : bool :=
  ((9 <=? c) && (c <=? 13)) || ((28 <=? c) && (c <=? 32))
  || (c =? 133) || (c =? 160) || (c =? 5760)
  || ((8192 <=? c) && (c <=? 8202))
  || (c =? 8232) || (c =? 8233) || (c =? 8239) || (c =? 8287) || (c =? 12288).

Fixpoint lstrip (s : pystr) : pystr :=
  match s with
  | [] => []
  | c :: s' => if isspace c then lstrip s' else s
  end.

Definition rstrip (s : pystr) : pystr := rev (lstrip (rev s)).

Definition strip (s : pystr) : pystr := rstrip (lstrip s).

(** [s.split()]: the maximal runs of characters that are not white space.
    [cur] is the run being read, in reverse. *)
Fixpoint split_ws_go (cur : pystr) (s : pystr) : list pystr :=
  match s with
  | [] => match cur with [] => [] | _ => [rev cur] end
  | c :: s' =>
      if isspace c
      then match cur with
           | [] => split_ws_go [] s'
           | _ => rev cur :: split_ws_go [] s'
           end
      else split_ws_go (c :: cur) s'
  end.

Definition split_ws (s : pystr) : list pystr := split_ws_go [] s.

(** [s.split(sep)] for a separator of one character: never empty. *)
Fixpoint split_on (sep : Z) (s : pystr) : list pystr :=
  match s with
  | [] => [[]]
  | c :: s' =>
      if c =? sep then [] :: split_on sep s'
      else match split_on sep s' with
           | [] => [[c]]
           | t :: ts => (c :: t) :: ts
           end
  end.

Fixpoint startswith (p s : pystr) : bool :=
  match p, s with
  | [], _ => true
  | _ :: _, [] => false
  | a :: p', b :: s' => (a =? b) && startswith p' s'
  end.

(** [sub in s] *)
Fixpoint contains (sub s : pystr) : bool :=
  startswith sub s ||
  match s with
  | [] => false
  | _ :: s' => contains sub s'
  end.

(** [s.replace(old, new)] for a non-empty [old]: occurrences are replaced from
    left to right and do not overlap; [skip] counts the characters of a
    replaced occurrence still to be dropped. *)
Fixpoint replace_go (old new : pystr) (skip : nat) (s : pystr) : pystr :=
  match s with
  | [] => []
  | c :: s' =>
      match skip with
      | S k => replace_go old new k s'
      | O => if startswith old s
             then new ++ replace_go old new (Nat.pred (length old)) s'
             else c :: replace_go old new O s'
      end
  end.

Definition replace (old new s : pystr) : pystr := replace_go old new O s.

(** [''.join(l)] *)
Definition join (l : list pystr) : pystr := concat l.

(** [l[i]] for [i >= 0] and [l[-1]] *)
Definition index {A} (l : list A) (i : nat) : PyResult A :=
  match l !! i with
  | Some x => Ok x
  | None => Raise IndexError
  end.

Definition index_last {A} (l : list A) : PyResult A :=
  match last l with
  | Some x => Ok x
  | None => Raise IndexError
  end.

(** The value of a character as a digit: [0-9], [a-z] and [A-Z].  A string
    decoded from code page 866 holds no other decimal digit. *)
Definition digit_value (c : Z) : option Z :=
  if (48 <=? c) && (c <=? 57) then Some (c - 48)
  else if (97 <=? c) && (c <=? 122) then Some (c - 97 + 10)
  else if (65 <=? c) && (c <=? 90) then Some (c - 65 + 10)
  else None.

(** The digits of [int(s, base)], single underscores allowed between them.
    [prev_us] tells that the previous character was an underscore. *)
Fixpoint scan_digits (base : Z) (prev_us : bool) (acc : Z) (s : pystr) : PyResult Z :=
  match s with
  | [] => if prev_us then Raise ValueError else Ok acc
  | c :: s' =>
      if c =? 95 then
        if prev_us then Raise ValueError else scan_digits base true acc s'
      else
        match digit_value c with
        | Some d =>
            if d <? base then scan_digits base false (acc * base + d) s'
            else Raise ValueError
        | None => Raise ValueError
        end
  end.

(** [int(s, base)] for [base] 10 or 16: white space around, one optional
    sign, for base 16 an optional [0x] or [0X] that one underscore may follow,
    then at least one digit.  (The limit on the number of decimal digits that
    recent interpreters apply, 4300 by default, is not modelled.) *)
Definition int (s : pystr) (base : Z) : PyResult Z :=
  let s := strip s in
  let '(sign, s) :=
    match s with
    | 43 :: r => (1, r)
    | 45 :: r => (-1, r)
    | _ => (1, s)
    end in
  let s :=
    match s with
    | 48 :: x :: r =>
        if (base =? 16) && ((x =? 120) || (x =? 88))
        then match r with 95 :: r' => r' | _ => r end
        else s
    | _ => s
    end in
  match s with
  | [] => Raise ValueError
  | c :: _ =>
      if c =? 95 then Raise ValueError
      else v ← scan_digits base false 0 s; Ok (sign * v)
  end.

End PyStr.

(** ** The two [fsutil] queries *)

(** What [subprocess.run] does: it returns a completed process with its exit
    status and its standard output, or raises (the program cannot be started). *)
Inductive RunResult : Type :=
  | Completed (returncode : Z) (stdout : list byte)
  | RunRaised (e : exn).

Module Fsutil.
Import PyStr.

(** ['отсутствуют'] *)
Definition no_extents_marker : pystr :=
  [1086; 1090; 1089; 1091; 1090; 1089; 1090; 1074; 1091; 1102; 1090].

(** ['Всего кластеров'] *)
Definition total_clusters_marker : pystr :=
  [1042; 1089; 1077; 1075; 1086; 32; 1082; 1083; 1072; 1089; 1090; 1077; 1088; 1086; 1074].

(** [[output[i:i + 6] for i in range(0, len(output), 6)]] *)
Definition parse_output {A} (output : list A) : list (list A) :=
  (fun k : nat => take 6 (drop (6 * k) output)) <$> seq 0 ((length output + 5) / 6)%nat.

(** The loop of [get_file_clusters] over the records, with [result] the list
    built so far. *)
Fixpoint clusters_loop (records : list (list pystr)) (result : list (Z * Z))
  : PyResult (list (Z * Z)) :=
  match records with
  | [] => Ok result
  | cluster_data :: rest =>
      last_field ← index_last cluster_data;
      start_cluster ← int last_field 16;
      count_field ← index cluster_data 3;
      cluster_count ← int count_field 16;
      clusters_loop rest (result ++ [(start_cluster, start_cluster + cluster_count - 1)])
  end.

(** [get_file_clusters(file_path)], given what
    [fsutil file queryextents file_path] does.  Every exception is caught and
    turned into the empty list. *)
Definition get_file_clusters (command : RunResult) : list (Z * Z) :=
  match command with
  | RunRaised _ => []
  | Completed returncode stdout =>
      if negb (returncode =? 0) then []
      else
        let output :=
          split_ws (replace (lit "/r/n") (lit "/n") (strip (decode_cp866 stdout))) in
        if (match output with [] => true | _ => false end)
           || contains no_extents_marker (join output)
        then []
        else
          match clusters_loop (parse_output output) [] with
          | Ok result => result
          | Raise _ => []
          end
  end.

(** The inner loop of [get_disk_clusters]: the elements are appended to
    [total_clusters_parse] until one starts with an opening parenthesis. *)
Fixpoint elements_loop (total_clusters : list pystr) (total_clusters_parse : pystr) : pystr :=
  match total_clusters with
  | [] => total_clusters_parse
  | element :: rest =>
      match element with
      | 40 :: _ => total_clusters_parse
      | _ => elements_loop rest (total_clusters_parse ++ element)
      end
  end.

(** The loop of [get_disk_clusters] over the lines. *)
Fixpoint lines_loop (output : list pystr) (total_clusters_parse : pystr) : PyResult pystr :=
  match output with
  | [] => Ok total_clusters_parse
  | line :: rest =>
      if contains total_clusters_marker line then
        field ← index (split_on 58 line) 1;
        lines_loop rest (elements_loop (split_ws (strip field)) total_clusters_parse)
      else lines_loop rest total_clusters_parse
  end.

(** [get_disk_clusters(file_path)], given what [fsutil fsinfo ntfsinfo disk]
    does.  Nothing is caught here. *)
Definition get_disk_clusters (command : RunResult) : PyResult Z :=
  match command with
  | RunRaised e => Raise e
  | Completed returncode stdout =>
      if negb (returncode =? 0) then Ok 0
      else
        let output := split_on 10 (strip (decode_cp866 stdout)) in
        total_clusters_parse ← lines_loop output [];
        int total_clusters_parse 10
  end.

End Fsutil.

(** ** Dictionaries in insertion order *)

Abbreviation dict K V := (list (K * V)) (only parsing).

(** [d[k] = v]: an existing key keeps its place, a new key goes last. *)
Fixpoint dict_set {K V} `{EqDecision K} (d : dict K V) (k : K) (v : V) : dict K V :=
  match d with
  | [] => [(k, v)]
  | (k', v') :: d' =>
      if decide (k = k') then (k, v) :: d' else (k', v') :: dict_set d' k v
  end.

(** [d.get(k, default)] *)
Fixpoint dict_get {K V} `{EqDecision K} (d : dict K V) (k : K) (default : V) : V :=
  match d with
  | [] => default
  | (k', v') :: d' => if decide (k = k') then v' else dict_get d' k default
  end.

(** The keys of a dictionary are distinct. *)
Definition dict_wf {K V} (d : dict K V) : Prop := NoDup d.*1.

(** ** Paths *)

(** What the program uses of [pathlib], which is not of this repository: the
    [Path] objects, taken up to [==] (two objects that [==] holds of are the
    same element of [Path]), which is how a dictionary finds a key and how a
    click compares two files; and [Path(s)] for a string [s].  Nothing is
    assumed of them: on Windows [Path] ignores the case of the letters and
    takes [/] for a backslash, elsewhere it does not.  The text of a path,
    [str(path)], which the program prints and shows, is not modelled. *)
Class Pathlib : Type := {
  Path : Type;
  Path_eq_dec :: EqDecision Path;
  as_path : string → Path
}.

(** ** The scan of a volume *)

Module Scanner.

(** A directory as [os.scandir] finds it: it cannot be listed (the call
    raises), or it has entries.  An entry is a regular file, with the answer
    of [fsutil file queryextents] for it, a directory, or something else. *)
Inductive directory : Type :=
  | Unreadable
  | Listing (entries : list entry)
with entry : Type :=
  | File (name : string) (queryextents : RunResult)
  | Dir (name : string) (content : directory)
  | Other (name : string).

Definition valid_directory (path : string) : bool :=
  negb (String.prefix "$" path || String.prefix "System Volume Information" path).

(** [entry.path]: the scanned path and the name of the entry, with a
    backslash between them unless the path ends with a separator or a colon. *)
Definition entry_path (root name : string) : string :=
  match last (list_ascii_of_string root) with
  | Some c =>
      if bool_decide (c = "\"%char ∨ c = "/"%char ∨ c = ":"%char)
      then (root ++ name)%string
      else (root ++ "\" ++ name)%string
  | None => name
  end.

(** [scan_directory(root, file_clusters)], where [content] is what
    [os.scandir(root)] finds.  The dictionary is threaded through the calls;
    no exception is caught. *)
Fixpoint scan_directory (root : string) (content : directory)
  (file_clusters : dict string (list (Z * Z))) {struct content}
  : PyResult (dict string (list (Z * Z))) :=
  match content with
  | Unreadable => Raise OSError
  | Listing entries =>
      (fix loop (entries : list entry) (file_clusters : dict string (list (Z * Z)))
         : PyResult (dict string (list (Z * Z))) :=
         match entries with
         | [] => Ok file_clusters
         | e :: rest =>
             match
               match e with
               | Dir name sub =>
                   if valid_directory name
                   then scan_directory (entry_path root name) sub file_clusters
                   else Ok file_clusters
               | File name queryextents =>
                   let clusters := Fsutil.get_file_clusters queryextents in
                   match clusters with
                   | [] => Ok file_clusters
                   | _ => Ok (dict_set file_clusters (entry_path root name) clusters)
                   end
               | Other _ => Ok file_clusters
               end
             with
             | Ok file_clusters' => loop rest file_clusters'
             | Raise exc => Raise exc
             end
         end) entries file_clusters
  end.

(** The tasks submitted to the executor: one per valid directory of the root
    of the disk.  Files of the root itself are not looked at. *)
Definition submitted (disk_name : string) (entries : list entry)
  : list (string * directory) :=
  omap (fun e =>
          match e with
          | Dir name sub =>
              if valid_directory name then Some (entry_path disk_name name, sub)
              else None
          | _ => None
          end) entries.

(** The tasks share [file_clusters]; [future.result()] raises again what the
    task raised.  The workers are run here one after the other, in the order
    of submission: whether the scan raises, and which paths the dictionary
    holds when it does not, is the same under every schedule; the order of
    the keys is the one of this schedule. *)
Fixpoint run_tasks (tasks : list (string * directory)) (file_clusters : dict string (list (Z * Z)))
  : PyResult (dict string (list (Z * Z))) :=
  match tasks with
  | [] => Ok file_clusters
  | (path, sub) :: rest =>
      file_clusters' ← scan_directory path sub file_clusters;
      run_tasks rest file_clusters'
  end.

Section WithPaths.
Context `{PL : Pathlib}.

(** [{Path(path): clusters for path, clusters in file_clusters.items()}] *)
Definition path_keys (file_clusters : dict string (list (Z * Z)))
  : dict Path (list (Z * Z)) :=
  foldl (fun d item => dict_set d (as_path item.1) item.2) [] file_clusters.

(** [get_files_with_clusters(file_path)], where [disk] is
    [os.path.splitdrive(file_path)[0]] and [volume] what [os.scandir] finds at
    the root of that disk. *)
Definition get_files_with_clusters (disk : string) (volume : directory)
  : PyResult (dict Path (list (Z * Z))) :=
  let disk_name := (disk ++ "\")%string in
  match volume with
  | Unreadable => Raise OSError
  | Listing entries =>
      file_clusters ← run_tasks (submitted disk_name entries) [];
      Ok (path_keys file_clusters)
  end.

End WithPaths.

End Scanner.

(** ** The main window *)

Module Window.

Section WithPaths.
Context `{PL : Pathlib}.

Inductive Style : Type := yellow | blue | gray.

(** A cluster button: its [index] property and its style sheet.  The place of
    the button in the grid layout is not modelled. *)
Record Button : Type := mkButton {
  index : Z;
  style : Style
}.

(** The attributes of [Window] that the methods below read and write. *)
Record Window : Type := mkWindow {
  loaded_clusters : gset Z;
  cluster_group : list (Z * Z);
  file_path : option Path;
  file_clusters_map : dict Path (list (Z * Z));
  visible_range : Z;
  cluster_buttons : list Button
}.

(** The state [__init__] leaves. *)
Definition init : Window :=
  {| loaded_clusters := ∅;
     cluster_group := [];
     file_path := None;
     file_clusters_map := [];
     visible_range := 500;
     cluster_buttons := [] |}.

(** [range(a, b)] *)
Definition range (a b : Z) : list Z := seqZ a (b - a).

(** [start <= index <= end] *)
Definition in_extent (index : Z) (extent : Z * Z) : bool :=
  (extent.1 <=? index) && (index <=? extent.2).

(** [any(start <= index <= end for start, end in group)] *)
Definition in_group (index : Z) (group : list (Z * Z)) : bool :=
  existsb (in_extent index) group.

(** [get_disk_clusters(self.file_path)], given what
    [fsutil fsinfo ntfsinfo] does for the disk of that path;
    [os.path.splitdrive] raises on [None]. *)
Definition disk_clusters_of (fsinfo : RunResult) (self : Window) : PyResult Z :=
  match file_path self with
  | None => Raise TypeError
  | Some _ => Fsutil.get_disk_clusters fsinfo
  end.

Definition add_cluster_button (self : Window) (index : Z) : Window :=
  let is_file_cluster := in_group index (cluster_group self) in
  let is_in_file_clusters_map :=
    existsb (fun item : Path * list (Z * Z) => in_group index item.2)
            (file_clusters_map self) in
  let btn_style :=
    if is_file_cluster then yellow
    else if is_in_file_clusters_map then blue
    else gray in
  {| loaded_clusters := loaded_clusters self;
     cluster_group := cluster_group self;
     file_path := file_path self;
     file_clusters_map := file_clusters_map self;
     visible_range := visible_range self;
     cluster_buttons := cluster_buttons self ++ [mkButton index btn_style] |}.

(** [self.loaded_clusters.add(index)] *)
Definition add_loaded (self : Window) (index : Z) : Window :=
  {| loaded_clusters := {[index]} ∪ loaded_clusters self;
     cluster_group := cluster_group self;
     file_path := file_path self;
     file_clusters_map := file_clusters_map self;
     visible_range := visible_range self;
     cluster_buttons := cluster_buttons self |}.

(** The body of the inner loop of [display_clusters_near_highlighted]. *)
Definition display_cluster (disk_clusters : Z) (self : Window) (cluster_index : Z) : Window :=
  if (0 <=? cluster_index) && (cluster_index <? disk_clusters)
     && negb (bool_decide (cluster_index ∈ loaded_clusters self))
  then add_loaded (add_cluster_button self cluster_index) cluster_index
  else self.

(** One round of its outer loop (the loop that only prints is left out). *)
Definition display_extent (disk_clusters : Z) (self : Window) (extent : Z * Z) : Window :=
  let '(start, end_) := extent in
  foldl (display_cluster disk_clusters) self
        (range (start - visible_range self) (end_ + visible_range self + 1)).

Definition display_clusters_near_highlighted (fsinfo : RunResult) (self : Window)
  : PyResult Window :=
  disk_clusters ← disk_clusters_of fsinfo self;
  Ok (foldl (display_extent disk_clusters) self (cluster_group self)).

(** [min(s)] and [max(s)] of a set of integers; both raise on the empty set. *)
Definition py_min (s : gset Z) : PyResult Z :=
  match elements s with
  | [] => Raise ValueError
  | x :: l => Ok (foldr Z.min x l)
  end.

Definition py_max (s : gset Z) : PyResult Z :=
  match elements s with
  | [] => Raise ValueError
  | x :: l => Ok (foldr Z.max x l)
  end.

(** The body of the loop of [load_additional_clusters]. *)
Definition load_cluster (self : Window) (cluster_index : Z) : Window :=
  if negb (bool_decide (cluster_index ∈ loaded_clusters self))
  then add_loaded (add_cluster_button self cluster_index) cluster_index
  else self.

Definition load_additional_clusters (fsinfo : RunResult) (above : bool) (self : Window)
  : PyResult Window :=
  disk_clusters ← disk_clusters_of fsinfo self;
  min_loaded ← (if bool_decide (loaded_clusters self ≠ ∅)
                then py_min (loaded_clusters self) else Ok 0);
  max_loaded ← (if bool_decide (loaded_clusters self ≠ ∅)
                then py_max (loaded_clusters self) else Ok 0);
  let '(start, end_) :=
    if above
    then (Z.max (min_loaded - visible_range self) 0, min_loaded)
    else (max_loaded + 1, Z.min (max_loaded + visible_range self) disk_clusters) in
  Ok (foldl load_cluster self (range (start + 1) (end_ + 1))).

(** The clusters for which a call added a button, in the order of the calls
    of [add_cluster_button]: the buttons of [self'] that [self] has not. *)
Definition materialized (self self' : Window) : list Z :=
  index <$> drop (length (cluster_buttons self)) (cluster_buttons self').

(** What a click does: it opens a [ClusterInfoWindow] on the clicked cluster,
    the file and its ranges; or it makes another file the highlighted one; or
    nothing happens. *)
Inductive ClickOutcome : Type :=
  | SameFileDetail (cluster_number : Z) (path : Path) (group : list (Z * Z))
  | OtherFileSelected (path : Path) (group : list (Z * Z))
  | Unowned.

(** The inner loop of the search: [clicked] is the pair of
    [clicked_file_path] and [clicked_cluster_group]; [rest] is what is left of
    [clusters] to look at. *)
Fixpoint search_clusters (cluster_index : Z) (path : Path) (clusters rest : list (Z * Z))
  (clicked : option Path * list (Z * Z)) : option Path * list (Z * Z) :=
  match rest with
  | [] => clicked
  | extent :: rest' =>
      if in_extent cluster_index extent then (Some path, clusters)
      else search_clusters cluster_index path clusters rest' clicked
  end.

(** The outer loop, over [self.file_clusters_map.items()]. *)
Definition search_files (cluster_index : Z) (items : dict Path (list (Z * Z)))
  : option Path * list (Z * Z) :=
  foldl (fun clicked item =>
           search_clusters cluster_index item.1 item.2 item.2 clicked)
        (None, []) items.

(** The two loops over the buttons, before and after the change of
    [self.cluster_group]. *)
Definition restyle (old_group new_group : list (Z * Z)) (btn : Button) : Button :=
  let btn := if in_group (index btn) old_group then mkButton (index btn) blue else btn in
  if in_group (index btn) new_group then mkButton (index btn) yellow else btn.

Definition handle_cluster_click (self : Window) (cluster_index : Z)
  : Window * ClickOutcome :=
  let '(clicked_file_path, clicked_cluster_group) :=
    search_files cluster_index (file_clusters_map self) in
  match clicked_file_path with
  | Some path =>
      if bool_decide (Some path = file_path self)
      then (self, SameFileDetail cluster_index path clicked_cluster_group)
      else ({| loaded_clusters := loaded_clusters self;
               cluster_group := clicked_cluster_group;
               file_path := Some path;
               file_clusters_map := file_clusters_map self;
               visible_range := visible_range self;
               cluster_buttons :=
                 restyle (cluster_group self) clicked_cluster_group
                   <$> cluster_buttons self |},
            OtherFileSelected path clicked_cluster_group)
  | None => (self, Unowned)
  end.

(** [load_clusters], for the text typed in [path_input]: [path_exists] is
    [os.path.exists(file_path)], and [disk], [volume] and [fsinfo] are what
    the scan and the query of the disk find.  The buttons of an earlier load
    stay in [cluster_buttons]. *)
Definition load_clusters (text : string) (path_exists : bool) (disk : string)
  (volume : Scanner.directory) (fsinfo : RunResult) (self : Window)
  : PyResult Window :=
  if path_exists then
    files ← Scanner.get_files_with_clusters disk volume;
    display_clusters_near_highlighted fsinfo
      {| loaded_clusters := ∅;
         cluster_group := dict_get files (as_path text) [];
         file_path := Some (as_path text);
         file_clusters_map := files;
         visible_range := visible_range self;
         cluster_buttons := cluster_buttons self |}
  else Ok self.

End WithPaths.

End Window.

(** ** Predicates of the specification *)

Import Window.

Section Predicates.
Context `{PL : Pathlib}.

(** The index is one that the guard of a loop lets through. *)
Definition in_disk (disk_clusters : Z) (i : Z) : bool :=
  (0 <=? i) && (i <? disk_clusters).

(** [self'] is [self] with buttons added for the indices [new], which are
    now loaded too; nothing else differs. *)
Definition grows (self self' : Window) (new : list Z) : Prop :=
  (∃ btns, cluster_buttons self' = cluster_buttons self ++ btns ∧ index <$> btns = new) ∧
  loaded_clusters self' = loaded_clusters self ∪ list_to_set new ∧
  cluster_group self' = cluster_group self ∧
  file_path self' = file_path self ∧
  file_clusters_map self' = file_clusters_map self ∧
  visible_range self' = visible_range self.

(** The indices of [l] that pass [P] and are not in [X], each once, in the
    order of [l]. *)
Fixpoint fresh (P : Z → bool) (X : gset Z) (l : list Z) : list Z :=
  match l with
  | [] => []
  | i :: l' =>
      if P i && negb (bool_decide (i ∈ X))
      then i :: fresh P ({[i]} ∪ X) l'
      else fresh P X l'
  end.

(** The margin around an extent: [start - visible_range <= i <= end + visible_range]. *)
Definition near (visible_range : Z) (group : list (Z * Z)) (i : Z) : Prop :=
  ∃ s e, (s, e) ∈ group ∧ s - visible_range ≤ i ≤ e + visible_range.

(** No cluster lies in the ranges of two files of the map. *)
Definition files_disjoint (files : dict Path (list (Z * Z))) : Prop :=
  ∀ p1 g1 p2 g2 i,
    (p1, g1) ∈ files → (p2, g2) ∈ files →
    in_group i g1 = true → in_group i g2 = true → p1 = p2.

(** The highlighted ranges are those the map has for the highlighted file,
    as [load_clusters] and a click leave them. *)
Definition highlight_consistent (self : Window) : Prop :=
  match file_path self with
  | Some p => cluster_group self = dict_get (file_clusters_map self) p []
  | None => cluster_group self = []
  end.

(** What holds of the window from [__init__] on, after any load, scroll or
    click. *)
Definition window_ok (self : Window) : Prop :=
  dict_wf (file_clusters_map self) ∧ highlight_consistent self.

(** The items of the map whose ranges hold the cluster. *)
Definition owners (cluster_index : Z) (files : dict Path (list (Z * Z)))
  : list (Path * list (Z * Z)) :=
  filter (fun item => in_group cluster_index item.2 = true) files.

(** The ranges at two different places of a list share no cluster. *)
Definition ranges_disjoint (l : list (Z * Z)) : Prop :=
  ForallOrdPairs (fun r1 r2 => ∀ c, ¬ (r1.1 ≤ c ≤ r1.2 ∧ r2.1 ≤ c ≤ r2.2)) l.

(** What the specification asks of the ranges of one file. *)
Definition extents_well_formed (l : list (Z * Z)) : Prop :=
  (∀ s e, (s, e) ∈ l → s ≤ e) ∧ ranges_disjoint l.

(** The words of the answer of [fsutil file queryextents], six by six. *)
Definition records (stdout : list byte) : list (list PyStr.pystr) :=
  Fsutil.parse_output
    (PyStr.split_ws
       (PyStr.replace (PyStr.lit "/r/n") (PyStr.lit "/n")
          (PyStr.strip (PyStr.decode_cp866 stdout)))).

(** The run a record reports: its first cluster (the last word) and its
    number of clusters (the fourth word), both hexadecimal. *)
Definition reported_run (cluster_data : list PyStr.pystr) : PyResult (Z * Z) :=
  last_field ← PyStr.index_last cluster_data;
  start_cluster ← PyStr.int last_field 16;
  count_field ← PyStr.index cluster_data 3;
  cluster_count ← PyStr.int count_field 16;
  Ok (start_cluster, cluster_count).

Definition reported_runs (stdout : list byte) : list (Z * Z) :=
  omap (fun cluster_data =>
          match reported_run cluster_data with
          | Ok run => Some run
          | Raise _ => None
          end) (records stdout).

(** The inclusive range of a run. *)
Definition range_of_run (run : Z * Z) : Z * Z := (run.1, run.1 + run.2 - 1).

(** The runs hold a cluster at least each, and no two share one. *)
Fixpoint runs_apart (runs : list (Z * Z)) : bool :=
  match runs with
  | [] => true
  | (s, c) :: rest =>
      forallb (fun run : Z * Z => (s + c <=? run.1) || (run.1 + run.2 <=? s)) rest
      && runs_apart rest
  end.

Definition runs_ok (runs : list (Z * Z)) : bool :=
  forallb (fun run : Z * Z => 1 <=? run.2) runs && runs_apart runs.

(** Some line of the answer of [fsutil fsinfo ntfsinfo] holds the words
    that introduce the number of clusters. *)
Definition mentions_total (stdout : list byte) : bool :=
  existsb (PyStr.contains Fsutil.total_clusters_marker)
          (PyStr.split_on 10 (PyStr.strip (PyStr.decode_cp866 stdout))).

(** The unreadable directories that a scan reaches: those under valid
    directories only. *)
Fixpoint reaches_unreadable (content : Scanner.directory) : bool :=
  match content with
  | Scanner.Unreadable => true
  | Scanner.Listing entries =>
      existsb (fun e =>
                 match e with
                 | Scanner.Dir name sub =>
                     Scanner.valid_directory name && reaches_unreadable sub
                 | _ => false
                 end) entries
  end.

End Predicates.

(** ** Sample data *)

(** A stand-in for [pathlib] in the examples.  Like [Path] on Windows it
    takes no account of the case of the letters A to Z and takes [/] for a
    backslash: a path is kept as its string with these replaced. *)
Definition normcase_char (c : ascii) : ascii :=
  let n := nat_of_ascii c in
  if bool_decide (c = "/"%char) then "\"%char
  else if ((65 <=? n) && (n <=? 90))%nat then ascii_of_nat (n + 32)
  else c.

Fixpoint normcase (s : string) : string :=
  match s with
  | EmptyString => EmptyString
  | String c s' => String (normcase_char c) (normcase s')
  end.

Definition sample_pathlib : Pathlib :=
  {| Path := string; Path_eq_dec := _; as_path := normcase |}.

Definition ascii_bytes (s : string) : list byte := list_byte_of_string s.

(** [Всего кластеров : 1000] and the like, in code page 866. *)
Definition ntfsinfo (total : string) : RunResult :=
  Completed 0
    ([x82; xe1; xa5; xa3; xae; x20; xaa; xab; xa0; xe1; xe2; xa5; xe0; xae; xa2]
     ++ ascii_bytes " : " ++ ascii_bytes total).

Definition sample_files : list (@Path sample_pathlib * list (Z * Z)) :=
  [(as_path "C:\data\a.bin", [(100, 104)]);
   (as_path "C:\data\b.bin", [(300, 310); (10, 20)])].

(** File A highlighted, under a path typed in capitals; nothing loaded, a
    margin of 5. *)
Definition sample_window : @Window sample_pathlib :=
  {| loaded_clusters := ∅;
     cluster_group := [(100, 104)];
     file_path := Some (as_path "C:\DATA\A.BIN");
     file_clusters_map := sample_files;
     visible_range := 5;
     cluster_buttons := [] |}.

(** The same with the clusters 95 to 109 loaded. *)
Definition scrolled_window : @Window sample_pathlib :=
  {| loaded_clusters := list_to_set (range 95 110);
     cluster_group := [(100, 104)];
     file_path := Some (as_path "C:\DATA\A.BIN");
     file_clusters_map := sample_files;
     visible_range := 5;
     cluster_buttons :=
       (fun i => mkButton i (if in_group i [(100, 104)] then yellow else gray))
         <$> range 95 110 |}.

(** Two files whose ranges share the clusters 15 to 20. *)
Definition overlapping_window : @Window sample_pathlib :=
  {| loaded_clusters := ∅;
     cluster_group := [(10, 20)];
     file_path := Some (as_path "A");
     file_clusters_map := [(as_path "A", [(10, 20)]); (as_path "B", [(15, 30)])];
     visible_range := 5;
     cluster_buttons := [] |}.

(** Answers of [fsutil file queryextents]: two runs apart; a run of no
    cluster; two runs that share clusters. *)
Definition extents_two_runs : list byte :=
  ascii_bytes "VCN: 0x0        Clusters: 0x10       LCN: 0x2a5c3 VCN: 0x10        Clusters: 0x8       LCN: 0x100".

Definition extents_empty_run : list byte :=
  ascii_bytes "VCN: 0x0 Clusters: 0x0 LCN: 0x5".

Definition extents_shared : list byte :=
  ascii_bytes "VCN: 0x0 Clusters: 0x10 LCN: 0x5 VCN: 0x10 Clusters: 0x3 LCN: 0xa".

(** A disk with one directory that cannot be listed, next to two files. *)
Definition sample_volume : Scanner.directory :=
  Scanner.Listing
    [ Scanner.Dir "data"
        (Scanner.Listing
           [ Scanner.File "a.bin" (Completed 0 extents_two_runs);
             Scanner.Dir "private" Scanner.Unreadable;
             Scanner.File "b.bin" (Completed 0 extents_empty_run) ]) ].

(** The same disk without that directory, and with a file whose query fails. *)
Definition readable_volume : Scanner.directory :=
  Scanner.Listing
    [ Scanner.Dir "data"
        (Scanner.Listing
           [ Scanner.File "a.bin" (Completed 0 extents_two_runs);
             Scanner.File "b.bin" (Completed 1 []) ]);
      Scanner.File "pagefile.sys" (Completed 0 extents_two_runs) ].

(** ** The grid, the colours and the sessions *)

Section Sessions.
Context `{PL : Pathlib}.

(** [get_columns_count], for the width of the scroll area. *)
Definition get_columns_count (width : Z) : Z :=
  let container_width := width - 20 in
  let button_width := 15 in
  let min_margin := 2 in
  container_width / (button_width + min_margin) + 2.

(** The row and the column at which [add_cluster_button] lays the button of
    a cluster out: [index // columns] and [index % columns], which raise
    [ZeroDivisionError] (here [None]) when there is no column. *)
Definition grid_cell (width index : Z) : option (Z * Z) :=
  let columns_clasters := get_columns_count width in
  if columns_clasters =? 0 then None
  else Some (index / columns_clasters, index mod columns_clasters).

(** The colour a cluster has by its owner: yellow in the highlighted ranges,
    blue in the ranges of a file of the map, gray otherwise. *)
Definition style_of (self : Window) (i : Z) : Style :=
  if in_group i (cluster_group self) then yellow
  else if existsb (fun item : Path * list (Z * Z) => in_group i item.2)
                  (file_clusters_map self) then blue
  else gray.

(** Every button has the colour of its cluster. *)
Definition styles_ok (self : Window) : Prop :=
  ∀ b, b ∈ cluster_buttons self → style b = style_of self (index b).

(** The buttons are those of the loaded clusters, one each. *)
Definition buttons_ok (self : Window) : Prop :=
  NoDup (index <$> cluster_buttons self) ∧
  loaded_clusters self = list_to_set (index <$> cluster_buttons self).

(** The windows that the events lead to from [__init__]: loads, scrolls that
    load more clusters, and clicks, as long as no method raises. *)
Inductive reachable : Window → Prop :=
  | reachable_init : reachable init
  | reachable_load text path_exists disk volume fsinfo self self' :
      reachable self →
      load_clusters text path_exists disk volume fsinfo self = Ok self' →
      reachable self'
  | reachable_scroll fsinfo above self self' :
      reachable self →
      load_additional_clusters fsinfo above self = Ok self' →
      reachable self'
  | reachable_click self cluster_index :
      reachable self →
      reachable (handle_cluster_click self cluster_index).1.

(** The same with one load only, on a window that has no button yet, as
    [__init__] leaves it. *)
Inductive session : Window → Prop :=
  | session_load text disk volume fsinfo self self' :
      cluster_buttons self = [] →
      load_clusters text true disk volume fsinfo self = Ok self' →
      session self'
  | session_scroll fsinfo above self self' :
      session self →
      load_additional_clusters fsinfo above self = Ok self' →
      session self'
  | session_click self cluster_index :
      session self →
      session (handle_cluster_click self cluster_index).1.

(** The entries of the root of the disk that the scan enters. *)
Definition scanned_at_root (e : Scanner.entry) : bool :=
  match e with
  | Scanner.Dir name _ => Scanner.valid_directory name
  | _ => false
  end.

End Sessions.

(** A window as [__init__] leaves it, with a margin of 5. *)
Definition fresh_window : @Window sample_pathlib :=
  {| loaded_clusters := ∅;
     cluster_group := [];
     file_path := None;
     file_clusters_map := [];
     visible_range := 5;
     cluster_buttons := [] |}.

(** ** Answers that are well written *)

(** An answer of [fsutil file queryextents] cut in the middle of a record. *)
Definition extents_cut : list byte :=
  ascii_bytes "VCN: 0x0 Clusters: 0x10 LCN: 0x5 VCN: 0x10".

(** The byte of an ASCII character. *)
Definition ascii_byte (c : Z) : byte :=
  match Byte.of_N (Z.to_N c) with
  | Some b => b
  | None => x00
  end.

(** The characters of a list of decimal digits, and the number they write. *)
Definition digits_text (ds : list Z) : PyStr.pystr := (fun d => 48 + d) <$> ds.

Definition digits_value (ds : list Z) : Z := foldl (fun a d => a * 10 + d) 0 ds.

(** Groups of digits with a space between them, as in [62 381 567]. *)
Fixpoint groups_text (gs : list (list Z)) : PyStr.pystr :=
  match gs with
  | [] => []
  | [g] => digits_text g
  | g :: rest => digits_text g ++ [32] ++ groups_text rest
  end.

(** Every group has a digit at least, and only digits. *)
Definition groups_ok (gs : list (list Z)) : Prop :=
  gs ≠ [] ∧ Forall (fun g => g ≠ [] ∧ Forall (fun d => 0 ≤ d ≤ 9) g) gs.

(** The answer of [fsutil fsinfo ntfsinfo] that is the one line
    [Всего кластеров : ] followed by the groups. *)
Definition ntfsinfo_groups (gs : list (list Z)) : RunResult :=
  Completed 0
    ([x82; xe1; xa5; xa3; xae; x20; xaa; xab; xa0; xe1; xe2; xa5; xe0; xae; xa2]
     ++ (ascii_byte <$> ([32; 58; 32] ++ groups_text gs))).

(** ** Loops that add buttons *)

Section WindowProofs.
Context `{PL : Pathlib}.

Lemma grows_refl self : grows self self [].
Proof.
  repeat split; try done.
  - exists []. by rewrite app_nil_r.
  - set_solver.
Qed.

Lemma grows_trans self self' self'' new new' :
  grows self self' new → grows self' self'' new' → grows self self'' (new ++ new').
Proof.
  intros ([b [Hb Hi]] & Hl & Hg & Hp & Hm & Hv) ([b' [Hb' Hi']] & Hl' & Hg' & Hp' & Hm' & Hv').
  repeat split; try congruence.
  - exists (b ++ b'). rewrite Hb', Hb, fmap_app, Hi, Hi'. by rewrite app_assoc.
  - rewrite Hl', Hl, list_to_set_app_L. set_solver.
Qed.

Lemma grows_materialized self self' new :
  grows self self' new → materialized self self' = new.
Proof.
  intros ([b [Hb Hi]] & _). unfold materialized.
  by rewrite Hb, drop_app_length.
Qed.

Lemma add_button_grows self i :
  grows self (add_loaded (add_cluster_button self i) i) [i].
Proof.
  repeat split; try done.
  - eexists; split; [reflexivity | done].
  - simpl. set_solver.
Qed.

Lemma display_cluster_grows d self i :
  grows self (display_cluster d self i) (fresh (in_disk d) (loaded_clusters self) [i]).
Proof.
  unfold display_cluster, fresh, in_disk.
  destruct (_ && _); [apply add_button_grows | apply grows_refl].
Qed.

Lemma load_cluster_grows self i :
  grows self (load_cluster self i) (fresh (fun _ => true) (loaded_clusters self) [i]).
Proof.
  unfold load_cluster, fresh. simpl.
  destruct (negb _); [apply add_button_grows | apply grows_refl].
Qed.

Lemma fresh_cons P X i l :
  fresh P X (i :: l) = fresh P X [i] ++ fresh P (X ∪ list_to_set (fresh P X [i])) l.
Proof.
  simpl. destruct (_ && _); simpl.
  - do 2 f_equal. set_solver.
  - f_equal. set_solver.
Qed.

(** A loop whose body adds the indices that pass: it adds [fresh P]. *)
Lemma foldl_grows (P : Z → bool) (step : Window → Z → Window) :
  (∀ self i, grows self (step self i) (fresh P (loaded_clusters self) [i])) →
  ∀ l self, grows self (foldl step self l) (fresh P (loaded_clusters self) l).
Proof.
  intros Hstep l. induction l as [|i l IH]; intros self.
  - apply grows_refl.
  - rewrite fresh_cons. simpl foldl.
    eapply grows_trans; [apply Hstep |].
    destruct (Hstep self i) as (_ & <- & _). apply IH.
Qed.

Lemma elem_of_fresh P X l i :
  i ∈ fresh P X l ↔ i ∈ l ∧ P i = true ∧ i ∉ X.
Proof.
  revert X. induction l as [|j l IH]; intros X; simpl.
  - set_solver.
  - destruct (P j) eqn:HP; simpl.
    + case_bool_decide as Hj; simpl.
      * rewrite IH. split; [set_solver|].
        intros (Hi & ? & ?). apply elem_of_cons in Hi as [->|Hi]; [done | auto].
      * rewrite elem_of_cons, IH.
        split.
        -- intros [->|(? & ? & ?)]; [set_solver|]. set_solver.
        -- intros (Hi & ? & ?). apply elem_of_cons in Hi as [->|Hi]; [by left|].
           destruct (decide (i = j)) as [->|]; [by left | right; set_solver].
    + rewrite IH. split; [set_solver|].
      intros (Hi & ? & ?). apply elem_of_cons in Hi as [->|Hi]; [congruence | auto].
Qed.

Lemma NoDup_fresh P X l : NoDup (fresh P X l).
Proof.
  revert X. induction l as [|j l IH]; intros X; simpl; [constructor|].
  destruct (_ && _); [|apply IH].
  constructor; [|apply IH]. rewrite elem_of_fresh. set_solver.
Qed.

Lemma filter_ext_elem_of {A} (P Q : A → Prop) `{!∀ x, Decision (P x)} `{!∀ x, Decision (Q x)}
  (l : list A) :
  (∀ x, x ∈ l → P x ↔ Q x) → filter P l = filter Q l.
Proof.
  induction l as [|x l IH]; intros Hext; [done|].
  rewrite !filter_cons.
  rewrite IH by (intros; apply Hext; by right).
  pose proof (Hext x (list_elem_of_here _ _)) as Hx.
  destruct (decide (P x)), (decide (Q x)); tauto || done.
Qed.

(** On a list without repetition, [fresh] is a filter. *)
Lemma fresh_filter P X l :
  NoDup l → fresh P X l = filter (fun i => P i = true ∧ i ∉ X) l.
Proof.
  revert X. induction l as [|j l IH]; intros X Hnd; [done|].
  apply NoDup_cons in Hnd as [Hj Hnd]. simpl.
  rewrite filter_cons. destruct (decide _) as [[HP Hin]|Hn].
  - rewrite HP. rewrite bool_decide_eq_false_2 by exact Hin. simpl. f_equal.
    rewrite IH by done. apply filter_ext_elem_of. set_solver.
  - rewrite <- (IH X) by done.
    destruct (P j) eqn:HP; simpl; [|done].
    rewrite bool_decide_eq_true_2; [done|].
    destruct (decide (j ∈ X)); [done | exfalso; apply Hn; by split].
Qed.

Lemma bind_Ok {A B} (a : A) (f : A → PyResult B) : (Ok a ≫= f) = f a.
Proof. reflexivity. Qed.

Lemma bind_Raise {A B} (e : exn) (f : A → PyResult B) : (Raise e ≫= f) = Raise e.
Proof. reflexivity. Qed.

Lemma elem_of_range a b i : i ∈ range a b ↔ a ≤ i < b.
Proof. unfold range. rewrite elem_of_seqZ. lia. Qed.

Lemma NoDup_range a b : NoDup (range a b).
Proof. apply NoDup_seqZ. Qed.

Lemma in_disk_spec d i : in_disk d i = true ↔ 0 ≤ i < d.
Proof. unfold in_disk. rewrite andb_true_iff, Z.leb_le, Z.ltb_lt. done. Qed.

(** ** The first load around the highlighted ranges *)

Lemma display_extent_grows d self s e :
  grows self (display_extent d self (s, e))
    (fresh (in_disk d) (loaded_clusters self)
       (range (s - visible_range self) (e + visible_range self + 1))).
Proof. apply foldl_grows. apply display_cluster_grows. Qed.

Lemma near_cons vr s e g i :
  near vr ((s, e) :: g) i ↔ s - vr ≤ i ≤ e + vr ∨ near vr g i.
Proof.
  unfold near. split.
  - intros (s' & e' & Hin & Hi). apply elem_of_cons in Hin as [[= -> ->]|Hin]; [by left|].
    right. eauto.
  - intros [Hi|(s' & e' & Hin & Hi)].
    + exists s, e. split; [by left | done].
    + exists s', e'. split; [by right | done].
Qed.

Lemma display_group_grows d g self :
  ∃ new,
    grows self (foldl (display_extent d) self g) new ∧
    NoDup new ∧
    ∀ i, i ∈ new ↔ near (visible_range self) g i ∧ 0 ≤ i < d ∧ i ∉ loaded_clusters self.
Proof.
  revert self. induction g as [|[s e] g IH]; intros self.
  - exists []. split; [apply grows_refl|]. split; [constructor|].
    intros i. split; [by intros ?%elem_of_nil|].
    intros [(? & ? & ?%elem_of_nil & _) _]. done.
  - simpl foldl.
    pose proof (display_extent_grows d self s e) as H1.
    set (self1 := display_extent d self (s, e)) in *.
    set (n1 := fresh _ _ _) in H1.
    destruct (IH self1) as (n2 & H2 & Hnd2 & Hn2).
    assert (Hl1 : loaded_clusters self1 = loaded_clusters self ∪ list_to_set n1)
      by apply H1.
    assert (Hv1 : visible_range self1 = visible_range self) by apply H1.
    assert (Hn1 : ∀ i, i ∈ n1 ↔
              s - visible_range self ≤ i ≤ e + visible_range self ∧
              0 ≤ i < d ∧ i ∉ loaded_clusters self).
    { intros i. unfold n1. rewrite elem_of_fresh, elem_of_range, in_disk_spec.
      split; intros (? & ? & ?); repeat split; try done; lia. }
    exists (n1 ++ n2). split; [by eapply grows_trans|]. split.
    + apply NoDup_app. split; [apply NoDup_fresh|]. split; [|done].
      intros i Hi1 Hi2. apply Hn2 in Hi2 as (_ & _ & Hi2).
      apply Hi2. rewrite Hl1. set_solver.
    + intros i. rewrite elem_of_app, near_cons, Hn1, Hn2, Hv1, Hl1.
      rewrite not_elem_of_union, elem_of_list_to_set, Hn1.
      destruct (decide (s - visible_range self ≤ i ≤ e + visible_range self));
        tauto.
Qed.

(** C3.  Given the number of clusters of the disk, the first load adds a
    button exactly for the clusters within [visible_range] of a highlighted
    range that are on the disk and not loaded yet, each once, and loads them.
    For the ranges [(100, 104)], 1000 clusters, a margin of 5 and nothing
    loaded, these are the 15 clusters from 95 to 109. *)
Theorem initial_load_materializes fsinfo self total :
  disk_clusters_of fsinfo self = Ok total →
  ∃ self',
    display_clusters_near_highlighted fsinfo self = Ok self' ∧
    (∀ i, i ∈ materialized self self' ↔
          near (visible_range self) (cluster_group self) i ∧
          0 ≤ i < total ∧ i ∉ loaded_clusters self) ∧
    NoDup (materialized self self') ∧
    loaded_clusters self' = loaded_clusters self ∪ list_to_set (materialized self self') ∧
    (cluster_group self = [(100, 104)] → visible_range self = 5 → total = 1000 →
     loaded_clusters self = ∅ →
     materialized self self' =
       [95; 96; 97; 98; 99; 100; 101; 102; 103; 104; 105; 106; 107; 108; 109] ∧
     length (materialized self self') = 15%nat).
Proof.
  intros Hd. unfold display_clusters_near_highlighted. rewrite Hd, bind_Ok.
  eexists. split; [reflexivity|].
  destruct (display_group_grows total (cluster_group self) self) as (new & Hg & Hnd & Hnew).
  split; [by rewrite (grows_materialized _ _ _ Hg)|].
  split; [by rewrite (grows_materialized _ _ _ Hg)|].
  split; [rewrite (grows_materialized _ _ _ Hg); apply Hg|].
  intros Hgroup Hvr -> Hl.
  clear Hg Hnd Hnew new. rewrite Hgroup. cbn [foldl].
  rewrite (grows_materialized _ _ _ (display_extent_grows 1000 self 100 104)).
  rewrite Hvr, Hl. by vm_compute.
Qed.

Lemma grows_nil_eq self self' : grows self self' [] → self' = self.
Proof.
  intros ([b [Hb Hi]] & Hl & Hg & Hp & Hm & Hv).
  apply fmap_nil_inv in Hi as ->. rewrite app_nil_r in Hb.
  assert (loaded_clusters self' = loaded_clusters self) as Hl' by set_solver.
  destruct self, self'; simpl in *; congruence.
Qed.

Lemma nil_no_elem {A} (l : list A) : (∀ x, x ∉ l) → l = [].
Proof. destruct l as [|x l]; [done|]. intros H. destruct (H x). by left. Qed.

(** C4.  A second first load, right after one with the same answer of the
    disk, adds no button (and leaves the window as it is). *)
Theorem initial_load_idempotent fsinfo self total :
  disk_clusters_of fsinfo self = Ok total →
  ∃ self' self'',
    display_clusters_near_highlighted fsinfo self = Ok self' ∧
    display_clusters_near_highlighted fsinfo self' = Ok self'' ∧
    materialized self' self'' = [] ∧
    self'' = self'.
Proof.
  intros Hd.
  destruct (display_group_grows total (cluster_group self) self) as (n1 & Hg1 & _ & Hn1).
  set (self' := foldl (display_extent total) self (cluster_group self)) in *.
  assert (Hd' : disk_clusters_of fsinfo self' = Ok total).
  { unfold disk_clusters_of in *. destruct Hg1 as (_ & _ & _ & -> & _). done. }
  destruct (display_group_grows total (cluster_group self') self') as (n2 & Hg2 & _ & Hn2).
  assert (n2 = []) as ->.
  { apply nil_no_elem. intros i Hi. apply Hn2 in Hi as (Hnear & Hb & Hnl).
    destruct Hg1 as (_ & Hl & Hgr & _ & _ & Hv).
    rewrite Hv, Hgr in Hnear. apply Hnl. rewrite Hl.
    destruct (decide (i ∈ loaded_clusters self)); [set_solver|].
    apply elem_of_union_r, elem_of_list_to_set, Hn1. done. }
  exists self', (foldl (display_extent total) self' (cluster_group self')).
  unfold display_clusters_near_highlighted. rewrite Hd, Hd', !bind_Ok.
  split; [done|]. split; [done|].
  split; [by apply grows_materialized | by apply grows_nil_eq].
Qed.

Lemma display_no_clusters fsinfo self :
  disk_clusters_of fsinfo self = Ok 0 →
  display_clusters_near_highlighted fsinfo self = Ok self.
Proof.
  intros Hd. unfold display_clusters_near_highlighted. rewrite Hd, bind_Ok.
  destruct (display_group_grows 0 (cluster_group self) self) as (new & Hg & _ & Hnew).
  assert (new = []) as ->.
  { apply nil_no_elem. intros i Hi. apply Hnew in Hi. lia. }
  f_equal. by apply grows_nil_eq.
Qed.

(** C5.  When the disk is reported to have 0 clusters, the first load adds no
    button and changes nothing. *)
Theorem initial_load_unknown_total fsinfo self :
  disk_clusters_of fsinfo self = Ok 0 →
  display_clusters_near_highlighted fsinfo self = Ok self ∧
  ∀ self', display_clusters_near_highlighted fsinfo self = Ok self' →
           materialized self self' = [].
Proof.
  intros Hd. rewrite (display_no_clusters fsinfo self Hd). split; [done|].
  intros self' [= <-]. apply grows_materialized, grows_refl.
Qed.

(** A query of the disk that exits with an error counts as 0 clusters, so
    the first load then shows nothing. *)
Lemma initial_load_failed_query returncode stdout self :
  returncode ≠ 0 → file_path self ≠ None →
  display_clusters_near_highlighted (Completed returncode stdout) self = Ok self.
Proof.
  intros Hrc Hp. apply display_no_clusters.
  unfold disk_clusters_of. destruct (file_path self); [|done].
  simpl. apply Z.eqb_neq in Hrc. by rewrite Hrc.
Qed.

(** ** Loading more clusters on a scroll *)

Lemma foldr_min_spec x l :
  foldr Z.min x l ∈ x :: l ∧ ∀ y, y ∈ x :: l → foldr Z.min x l ≤ y.
Proof.
  induction l as [|a l [IHin IHle]]; simpl.
  - split; [by left|]. intros y ->%list_elem_of_singleton. lia.
  - split.
    + destruct (Z.min_spec a (foldr Z.min x l)) as [[_ ->]|[_ ->]].
      * right. by left.
      * apply elem_of_cons in IHin as [->|?]; [by left | right; by right].
    + intros y Hy. assert (y = a ∨ y ∈ x :: l) as [->|Hy'].
      { rewrite !elem_of_cons in Hy. rewrite elem_of_cons. tauto. }
      * lia.
      * specialize (IHle y Hy'). lia.
Qed.

Lemma foldr_max_spec x l :
  foldr Z.max x l ∈ x :: l ∧ ∀ y, y ∈ x :: l → y ≤ foldr Z.max x l.
Proof.
  induction l as [|a l [IHin IHle]]; simpl.
  - split; [by left|]. intros y ->%list_elem_of_singleton. lia.
  - split.
    + destruct (Z.max_spec a (foldr Z.max x l)) as [[_ ->]|[_ ->]].
      * apply elem_of_cons in IHin as [->|?]; [by left | right; by right].
      * right. by left.
    + intros y Hy. assert (y = a ∨ y ∈ x :: l) as [->|Hy'].
      { rewrite !elem_of_cons in Hy. rewrite elem_of_cons. tauto. }
      * lia.
      * specialize (IHle y Hy'). lia.
Qed.

Lemma py_min_spec (s : gset Z) :
  s ≠ ∅ → ∃ m, py_min s = Ok m ∧ m ∈ s ∧ ∀ y, y ∈ s → m ≤ y.
Proof.
  intros Hne. unfold py_min.
  destruct (elements s) as [|x l] eqn:He.
  - by apply elements_empty_inv, leibniz_equiv in He.
  - destruct (foldr_min_spec x l) as [Hin Hle]. rewrite <- He in Hin, Hle.
    eexists. split; [done|]. split; [by apply elem_of_elements|].
    intros y Hy. apply Hle. by apply elem_of_elements.
Qed.

Lemma py_max_spec (s : gset Z) :
  s ≠ ∅ → ∃ m, py_max s = Ok m ∧ m ∈ s ∧ ∀ y, y ∈ s → y ≤ m.
Proof.
  intros Hne. unfold py_max.
  destruct (elements s) as [|x l] eqn:He.
  - by apply elements_empty_inv, leibniz_equiv in He.
  - destruct (foldr_max_spec x l) as [Hin Hle]. rewrite <- He in Hin, Hle.
    eexists. split; [done|]. split; [by apply elem_of_elements|].
    intros y Hy. apply Hle. by apply elem_of_elements.
Qed.

(** What a scroll loads, for a set of loaded clusters with least element
    [lo] and greatest element [hi]: upwards the clusters strictly between
    [max (lo - visible_range) 0] and [lo]; downwards the clusters from
    [hi + 2] to [min (hi + visible_range) total], both included. *)
Lemma load_additional_clusters_range fsinfo above self total :
  disk_clusters_of fsinfo self = Ok total →
  loaded_clusters self ≠ ∅ →
  ∃ self' lo hi,
    load_additional_clusters fsinfo above self = Ok self' ∧
    py_min (loaded_clusters self) = Ok lo ∧
    py_max (loaded_clusters self) = Ok hi ∧
    grows self self' (materialized self self') ∧
    NoDup (materialized self self') ∧
    ∀ i, i ∈ materialized self self' ↔
         if above then Z.max (lo - visible_range self) 0 < i < lo
         else hi + 2 ≤ i ≤ Z.min (hi + visible_range self) total.
Proof.
  intros Hd Hne.
  destruct (py_min_spec _ Hne) as (lo & Hlo & Hlo_in & Hlo_le).
  destruct (py_max_spec _ Hne) as (hi & Hhi & Hhi_in & Hhi_le).
  unfold load_additional_clusters.
  rewrite Hd, bind_Ok, bool_decide_eq_true_2, Hlo, Hhi, !bind_Ok by done.
  set (bounds := if above then _ else _). destruct bounds as [start end_] eqn:Hb.
  pose proof (foldl_grows (fun _ => true) load_cluster load_cluster_grows
                (range (start + 1) (end_ + 1)) self) as Hg.
  eexists _, lo, hi. split; [reflexivity|]. split; [done|]. split; [done|].
  rewrite (grows_materialized _ _ _ Hg). split; [done|].
  split; [apply NoDup_fresh|].
  intros i. rewrite elem_of_fresh, elem_of_range.
  unfold bounds in Hb. destruct above; injection Hb as <- <-.
  - split.
    + intros (Hr & _ & Hnl).
      assert (i ≠ lo) by (intros ->; done). lia.
    + intros Hr. split; [lia|]. split; [done|].
      intros Hin. apply Hlo_le in Hin. lia.
  - split.
    + intros (Hr & _ & _). lia.
    + intros Hr. split; [lia|]. split; [done|].
      intros Hin. apply Hhi_le in Hin. lia.
Qed.

(** The list a scroll adds, from the bounds as the method computes them. *)
Lemma load_additional_clusters_fresh fsinfo above self total lo hi :
  disk_clusters_of fsinfo self = Ok total →
  (if bool_decide (loaded_clusters self ≠ ∅)
   then py_min (loaded_clusters self) else Ok 0) = Ok lo →
  (if bool_decide (loaded_clusters self ≠ ∅)
   then py_max (loaded_clusters self) else Ok 0) = Ok hi →
  ∃ self',
    load_additional_clusters fsinfo above self = Ok self' ∧
    grows self self'
      (fresh (fun _ => true) (loaded_clusters self)
         (if above
          then range (Z.max (lo - visible_range self) 0 + 1) (lo + 1)
          else range (hi + 1 + 1) (Z.min (hi + visible_range self) total + 1))).
Proof.
  intros Hd Hlo Hhi. unfold load_additional_clusters.
  rewrite Hd, bind_Ok, Hlo, bind_Ok, Hhi, bind_Ok.
  destruct above; eexists;
    (split; [reflexivity | apply foldl_grows, load_cluster_grows]).
Qed.

(** Scrolling up never adds a cluster below 1, and scrolling down never adds
    one above the number of clusters of the disk (which is itself one past
    the last cluster). *)
Lemma load_additional_clusters_bounds fsinfo above self total self' :
  disk_clusters_of fsinfo self = Ok total →
  loaded_clusters self ≠ ∅ →
  load_additional_clusters fsinfo above self = Ok self' →
  ∀ i, i ∈ materialized self self' → if above then 0 < i else i ≤ total.
Proof.
  intros Hd Hne Hrun i Hi.
  destruct (load_additional_clusters_range fsinfo above self total Hd Hne)
    as (self1 & lo & hi & Hrun1 & _ & _ & _ & _ & Hm).
  rewrite Hrun in Hrun1. injection Hrun1 as <-.
  apply Hm in Hi. destruct above; lia.
Qed.

(** C1.  With the clusters 95 to 109 loaded, a margin of 5 and a disk of 1000
    clusters, scrolling down adds the clusters 111 to 114, not 110, which stays
    out of the loaded set while its greatest element becomes 114; scrolling up
    adds the clusters 91 to 94, not 90. *)
Theorem load_additional_clusters_skips_one fsinfo self :
  disk_clusters_of fsinfo self = Ok 1000 →
  visible_range self = 5 →
  loaded_clusters self = list_to_set (range 95 110) →
  (∃ self',
     load_additional_clusters fsinfo false self = Ok self' ∧
     materialized self self' = [111; 112; 113; 114] ∧
     (110 ∉ loaded_clusters self') ∧
     py_max (loaded_clusters self') = Ok 114) ∧
  (∃ self',
     load_additional_clusters fsinfo true self = Ok self' ∧
     materialized self self' = [91; 92; 93; 94] ∧
     90 ∉ loaded_clusters self').
Proof.
  intros Hd Hv Hl.
  assert (Hlo : (if bool_decide (loaded_clusters self ≠ ∅)
                 then py_min (loaded_clusters self) else Ok 0) = Ok 95)
    by (rewrite Hl; by vm_compute).
  assert (Hhi : (if bool_decide (loaded_clusters self ≠ ∅)
                 then py_max (loaded_clusters self) else Ok 0) = Ok 109)
    by (rewrite Hl; by vm_compute).
  split.
  - destruct (load_additional_clusters_fresh fsinfo false self 1000 95 109 Hd Hlo Hhi)
      as (self' & Hrun & Hg).
    rewrite Hv, Hl in Hg.
    exists self'. split; [done|].
    rewrite (grows_materialized _ _ _ Hg).
    destruct Hg as (_ & -> & _). rewrite Hl. by vm_compute.
  - destruct (load_additional_clusters_fresh fsinfo true self 1000 95 109 Hd Hlo Hhi)
      as (self' & Hrun & Hg).
    rewrite Hv, Hl in Hg.
    exists self'. split; [done|].
    rewrite (grows_materialized _ _ _ Hg).
    destruct Hg as (_ & -> & _). rewrite Hl. by vm_compute.
Qed.

(** C2.  With the clusters 95 to 109 loaded, a margin of 5 and a disk of 111
    clusters (numbered 0 to 110), scrolling down adds the cluster 111. *)
Theorem load_additional_clusters_past_end fsinfo self :
  disk_clusters_of fsinfo self = Ok 111 →
  visible_range self = 5 →
  loaded_clusters self = list_to_set (range 95 110) →
  ∃ self',
    load_additional_clusters fsinfo false self = Ok self' ∧
    materialized self self' = [111] ∧
    111 ∈ loaded_clusters self'.
Proof.
  intros Hd Hv Hl.
  assert (Hlo : (if bool_decide (loaded_clusters self ≠ ∅)
                 then py_min (loaded_clusters self) else Ok 0) = Ok 95)
    by (rewrite Hl; by vm_compute).
  assert (Hhi : (if bool_decide (loaded_clusters self ≠ ∅)
                 then py_max (loaded_clusters self) else Ok 0) = Ok 109)
    by (rewrite Hl; by vm_compute).
  destruct (load_additional_clusters_fresh fsinfo false self 111 95 109 Hd Hlo Hhi)
    as (self' & Hrun & Hg).
  rewrite Hv, Hl in Hg.
  exists self'. split; [done|].
  rewrite (grows_materialized _ _ _ Hg).
  destruct Hg as (_ & -> & _). rewrite Hl. by vm_compute.
Qed.

(** ** Clicks *)

Lemma search_clusters_spec idx path clusters rest clicked :
  search_clusters idx path clusters rest clicked =
  if in_group idx rest then (Some path, clusters) else clicked.
Proof.
  induction rest as [|extent rest IH]; simpl; [done|].
  unfold in_group in IH. by destruct (in_extent idx extent).
Qed.

Lemma search_files_from idx items clicked :
  foldl (fun clicked item => search_clusters idx item.1 item.2 item.2 clicked)
        clicked items =
  match last (owners idx items) with
  | Some item => (Some item.1, item.2)
  | None => clicked
  end.
Proof.
  revert clicked. induction items as [|[p g] items IH]; intros clicked; [done|].
  simpl foldl. rewrite IH, search_clusters_spec. unfold owners.
  rewrite filter_cons. simpl.
  destruct (decide (in_group idx g = true)) as [Hg|Hg].
  - rewrite Hg, last_cons. by destruct (last _).
  - apply not_true_is_false in Hg. by rewrite Hg.
Qed.

Lemma dict_wf_functional {K V} (d : dict K V) k v1 v2 :
  dict_wf d → (k, v1) ∈ d → (k, v2) ∈ d → v1 = v2.
Proof.
  unfold dict_wf. induction d as [|[k' v'] d IH]; intros Hnd H1 H2.
  - by apply elem_of_nil in H1.
  - rewrite fmap_cons in Hnd. apply NoDup_cons in Hnd as [Hk Hnd]. simpl in Hk.
    assert (Hkey : ∀ v, (k', v) ∈ d → False).
    { intros v Hv. apply Hk, list_elem_of_fmap. by exists (k', v). }
    apply elem_of_cons in H1 as [H1|H1]; apply elem_of_cons in H2 as [H2|H2].
    + congruence.
    + injection H1 as -> _. by destruct (Hkey v2).
    + injection H2 as -> _. by destruct (Hkey v1).
    + by apply IH.
Qed.

Lemma dict_get_elem_of {K V} `{EqDecision K} (d : dict K V) k v default :
  dict_wf d → (k, v) ∈ d → dict_get d k default = v.
Proof.
  unfold dict_wf. induction d as [|[k' v'] d IH]; intros Hnd Hin.
  - by apply elem_of_nil in Hin.
  - rewrite fmap_cons in Hnd. apply NoDup_cons in Hnd as [Hk Hnd]. simpl in *.
    apply elem_of_cons in Hin as [[= -> ->]|Hin].
    + by rewrite decide_True.
    + rewrite decide_False; [by apply IH|].
      intros ->. apply Hk, list_elem_of_fmap. by exists (k', v).
Qed.

Lemma dict_get_in_group {K} `{EqDecision K} (d : dict K (list (Z * Z))) k idx :
  in_group idx (dict_get d k []) = true → (k, dict_get d k []) ∈ d.
Proof.
  induction d as [|[k' v'] d IH]; simpl; [done|].
  destruct (decide (k = k')) as [->|]; intros H; [by left | right; auto].
Qed.

(** The file the search ends on, when some file of the map owns the cluster
    and no two files share a cluster. *)
Lemma search_files_owner idx files p g :
  dict_wf files → files_disjoint files →
  (p, g) ∈ files → in_group idx g = true →
  search_files idx files = (Some p, g).
Proof.
  intros Hwf Hdis Hin Hg. unfold search_files. rewrite search_files_from.
  assert (Ho : (p, g) ∈ owners idx files) by (by apply list_elem_of_filter).
  destruct (last (owners idx files)) as [[p' g']|] eqn:Hlast.
  - apply last_Some_elem_of, list_elem_of_filter in Hlast as [Hg' Hin'].
    simpl in Hg'. assert (p' = p) as -> by eauto.
    by rewrite (dict_wf_functional files p g' g Hwf Hin' Hin).
  - apply last_None in Hlast. rewrite Hlast in Ho. by apply elem_of_nil in Ho.
Qed.

Lemma search_files_none idx files :
  (∀ p g, (p, g) ∈ files → in_group idx g = false) →
  search_files idx files = (None, []).
Proof.
  intros Hnone. unfold search_files. rewrite search_files_from.
  destruct (last (owners idx files)) as [[p g]|] eqn:Hlast; [|done].
  apply last_Some_elem_of, list_elem_of_filter in Hlast as [Hg Hin].
  simpl in Hg. rewrite (Hnone p g Hin) in Hg. done.
Qed.

(** C9.  On a map with distinct keys whose files share no cluster, and with
    the highlighted ranges those of the highlighted file: a click inside the
    highlighted ranges opens the detail window and changes nothing; a click
    inside the ranges of another file of the map makes that file, with the
    ranges stored for it, the highlighted one and loads nothing; a click on a
    cluster of no file does nothing. *)
Theorem handle_cluster_click_outcomes self idx :
  dict_wf (file_clusters_map self) →
  files_disjoint (file_clusters_map self) →
  highlight_consistent self →
  (in_group idx (cluster_group self) = true →
   ∃ p, file_path self = Some p ∧
        handle_cluster_click self idx =
          (self, SameFileDetail idx p (cluster_group self))) ∧
  (∀ p g, (p, g) ∈ file_clusters_map self → in_group idx g = true →
          file_path self ≠ Some p →
          ∃ self', handle_cluster_click self idx = (self', OtherFileSelected p g) ∧
                   file_path self' = Some p ∧
                   cluster_group self' = g ∧
                   loaded_clusters self' = loaded_clusters self ∧
                   file_clusters_map self' = file_clusters_map self) ∧
  ((∀ p g, (p, g) ∈ file_clusters_map self → in_group idx g = false) →
   handle_cluster_click self idx = (self, Unowned)).
Proof.
  intros Hwf Hdis Hcons. split; [|split].
  - intros Hin. unfold highlight_consistent in Hcons.
    destruct (file_path self) as [p|] eqn:Hp; [|by rewrite Hcons in Hin].
    exists p. split; [done|].
    assert (Hmem : (p, cluster_group self) ∈ file_clusters_map self).
    { rewrite Hcons. rewrite Hcons in Hin. by eapply dict_get_in_group. }
    unfold handle_cluster_click.
    rewrite (search_files_owner idx _ p _ Hwf Hdis Hmem Hin), Hp.
    by rewrite bool_decide_eq_true_2.
  - intros p g Hmem Hin Hne. unfold handle_cluster_click.
    rewrite (search_files_owner idx _ p g Hwf Hdis Hmem Hin).
    rewrite bool_decide_eq_false_2 by congruence.
    eexists. split; [reflexivity|]. done.
  - intros Hnone. unfold handle_cluster_click.
    by rewrite (search_files_none idx _ Hnone).
Qed.

(** A click keeps the highlighted ranges those of the highlighted file. *)
Lemma handle_cluster_click_consistent self idx :
  dict_wf (file_clusters_map self) →
  highlight_consistent self →
  highlight_consistent (handle_cluster_click self idx).1.
Proof.
  intros Hwf Hcons. unfold handle_cluster_click, search_files.
  rewrite search_files_from.
  destruct (last (owners idx (file_clusters_map self))) as [[p g]|] eqn:Hlast;
    simpl; [|done].
  case_bool_decide; simpl; [done|].
  apply last_Some_elem_of, list_elem_of_filter in Hlast as [_ Hin].
  unfold highlight_consistent. simpl. symmetry. by apply dict_get_elem_of.
Qed.

(** C10.  The search of a click ends on the last item of the map, in the
    order of iteration, whose ranges hold the clicked cluster, and the click
    acts on that file; when one item only holds the cluster, it is that one. *)
Theorem handle_cluster_click_last_owner self idx :
  search_files idx (file_clusters_map self) =
    match last (owners idx (file_clusters_map self)) with
    | Some item => (Some item.1, item.2)
    | None => (None, [])
    end ∧
  (handle_cluster_click self idx).2 =
    match last (owners idx (file_clusters_map self)) with
    | Some item =>
        if bool_decide (Some item.1 = file_path self)
        then SameFileDetail idx item.1 item.2
        else OtherFileSelected item.1 item.2
    | None => Unowned
    end ∧
  (∀ item, owners idx (file_clusters_map self) = [item] →
           search_files idx (file_clusters_map self) = (Some item.1, item.2)).
Proof.
  assert (Hs := search_files_from idx (file_clusters_map self) (None, [])).
  fold (search_files idx (file_clusters_map self)) in Hs.
  split; [done|]. split.
  - unfold handle_cluster_click. rewrite Hs.
    destruct (last _) as [[p g]|]; simpl; [|done]. by case_bool_decide.
  - intros item Ho. by rewrite Hs, Ho.
Qed.

End WindowProofs.

(** ** The answers of [fsutil] *)

Import PyStr Fsutil.

Lemma lines_loop_no_marker output acc :
  existsb (contains total_clusters_marker) output = false →
  lines_loop output acc = Ok acc.
Proof.
  revert acc. induction output as [|line output IH]; intros acc H; [done|].
  simpl in H. apply orb_false_iff in H as [Hline Hrest].
  simpl. rewrite Hline. by apply IH.
Qed.

(** The query of the disk exits with an error: 0 clusters. *)
Lemma get_disk_clusters_failed_query returncode stdout :
  returncode ≠ 0 → get_disk_clusters (Completed returncode stdout) = Ok 0.
Proof. intros H%Z.eqb_neq. simpl. by rewrite H. Qed.

(** C8.  When the query of the disk exits with status 0 and no line of its
    answer holds the words that introduce the number of clusters,
    [get_disk_clusters] raises [ValueError] (it converts the empty string to
    an integer). *)
Theorem get_disk_clusters_raises stdout :
  mentions_total stdout = false →
  get_disk_clusters (Completed 0 stdout) = Raise ValueError.
Proof.
  intros H. unfold get_disk_clusters. simpl negb. cbv iota.
  rewrite (lines_loop_no_marker _ [] H), bind_Ok. reflexivity.
Qed.

(** What [subprocess.run] raises goes through as well. *)
Lemma get_disk_clusters_run_raised e :
  get_disk_clusters (RunRaised e) = Raise e.
Proof. reflexivity. Qed.

Lemma reported_run_Ok cluster_data (k : Z * Z → PyResult (list (Z * Z))) res :
  (last_field ← index_last cluster_data;
   start_cluster ← int last_field 16;
   count_field ← index cluster_data 3;
   cluster_count ← int count_field 16;
   k (start_cluster, cluster_count)) = Ok res →
  ∃ run, reported_run cluster_data = Ok run ∧ k run = Ok res.
Proof.
  unfold reported_run.
  destruct (index_last cluster_data) as [lf|]; [|done]. rewrite !bind_Ok.
  destruct (int lf 16) as [st|]; [|done]. rewrite !bind_Ok.
  destruct (index cluster_data 3) as [cf|]; [|done]. rewrite !bind_Ok.
  destruct (int cf 16) as [cnt|]; [|done]. rewrite !bind_Ok.
  intros H. by exists (st, cnt).
Qed.

Lemma clusters_loop_runs recs acc res :
  clusters_loop recs acc = Ok res →
  ∃ runs, Forall2 (fun d run => reported_run d = Ok run) recs runs ∧
          res = acc ++ (range_of_run <$> runs).
Proof.
  revert acc. induction recs as [|d recs IH]; intros acc H; simpl in H.
  - injection H as <-. exists []. split; [constructor | by rewrite app_nil_r].
  - apply (reported_run_Ok d
             (fun run => clusters_loop recs (acc ++ [(run.1, run.1 + run.2 - 1)])))
      in H as ([st cnt] & Hrun & Hrest).
    apply IH in Hrest as (runs & Hall & ->).
    exists ((st, cnt) :: runs). split; [by constructor|].
    by rewrite <- app_assoc.
Qed.

Lemma omap_reported recs runs :
  Forall2 (fun d run => reported_run d = Ok run) recs runs →
  omap (fun d => match reported_run d with Ok run => Some run | Raise _ => None end)
       recs = runs.
Proof.
  induction 1 as [|d run recs runs Hd _ IH]; [done|].
  simpl. rewrite Hd. f_equal. exact IH.
Qed.

(** The ranges returned are the runs reported, as they are. *)
Lemma get_file_clusters_reported returncode stdout :
  get_file_clusters (Completed returncode stdout) = [] ∨
  get_file_clusters (Completed returncode stdout) = range_of_run <$> reported_runs stdout.
Proof.
  unfold get_file_clusters.
  destruct (negb _); [by left|].
  destruct (_ || _); [by left|].
  fold (records stdout).
  destruct (clusters_loop (records stdout) []) as [res|] eqn:Hloop; [|by left].
  apply clusters_loop_runs in Hloop as (runs & Hall & ->).
  right. unfold reported_runs. by rewrite (omap_reported _ _ Hall).
Qed.

Lemma runs_apart_disjoint runs :
  runs_apart runs = true → ranges_disjoint (range_of_run <$> runs).
Proof.
  unfold ranges_disjoint.
  induction runs as [|[s c] runs IH]; simpl; [constructor|].
  intros [Hhead Hrest]%andb_true_iff. constructor; [|by apply IH].
  apply Forall_fmap, Forall_forall. intros [s' c'] Hin c0. simpl.
  rewrite forallb_forall in Hhead.
  specialize (Hhead (s', c')). rewrite <- list_elem_of_In in Hhead.
  specialize (Hhead Hin). simpl in Hhead.
  apply orb_true_iff in Hhead as [H%Z.leb_le|H%Z.leb_le]; lia.
Qed.

(** C6, as the program has it.  When every run that the answer reports holds
    at least one cluster and no two of them share a cluster, the ranges
    returned are well formed: each has its start at most its end, and no two
    share a cluster. *)
Theorem get_file_clusters_well_formed returncode stdout :
  runs_ok (reported_runs stdout) = true →
  extents_well_formed (get_file_clusters (Completed returncode stdout)).
Proof.
  intros [Hpos Hapart]%andb_true_iff.
  destruct (get_file_clusters_reported returncode stdout) as [->| ->].
  - split; [by intros ? ? ?%elem_of_nil | constructor].
  - split; [|by apply runs_apart_disjoint].
    intros s e ([s' c] & [= -> ->] & Hin)%list_elem_of_fmap. simpl.
    rewrite forallb_forall in Hpos. specialize (Hpos (s', c)).
    rewrite <- list_elem_of_In in Hpos. apply Hpos, Z.leb_le in Hin. simpl in Hin. lia.
Qed.

(** C6, as the specification has it, fails: a run of no cluster gives a range
    whose end is before its start, and two runs that share clusters give two
    ranges that share them. *)
Lemma get_file_clusters_ill_formed :
  (get_file_clusters (Completed 0 extents_empty_run) = [(5, 4)] ∧
   get_file_clusters (Completed 0 extents_shared) = [(5, 20); (10, 12)]) ∧
  ¬ extents_well_formed (get_file_clusters (Completed 0 extents_empty_run)) ∧
  ¬ extents_well_formed (get_file_clusters (Completed 0 extents_shared)).
Proof.
  assert (H1 : get_file_clusters (Completed 0 extents_empty_run) = [(5, 4)])
    by (by vm_compute).
  assert (H2 : get_file_clusters (Completed 0 extents_shared) = [(5, 20); (10, 12)])
    by (by vm_compute).
  split; [done|]. rewrite H1, H2. split.
  - intros [Hle _]. specialize (Hle 5 4 (list_elem_of_here _ _)). lia.
  - intros [_ Hdis]. unfold ranges_disjoint in Hdis.
    inversion Hdis as [|r l Hhead _]; subst.
    apply Forall_cons in Hhead as [Hc _]. apply (Hc 10). simpl. lia.
Qed.

Lemma get_file_clusters_well_formed_witness :
  runs_ok (reported_runs extents_two_runs) = true ∧
  extents_well_formed (get_file_clusters (Completed 0 extents_two_runs)).
Proof.
  split; [by vm_compute|].
  apply (get_file_clusters_well_formed 0 extents_two_runs). by vm_compute.
Defined.

Lemma get_disk_clusters_raises_witness :
  mentions_total (ascii_bytes "Total Clusters : 1000") = false ∧
  get_disk_clusters (Completed 0 (ascii_bytes "Total Clusters : 1000")) = Raise ValueError.
Proof.
  split; [by vm_compute|].
  apply (get_disk_clusters_raises (ascii_bytes "Total Clusters : 1000")). by vm_compute.
Defined.

(** ** The scan *)

Import Scanner.

Section MoreProofs.
Context `{PL : Pathlib}.

(** A directory that cannot be listed, reached by the scan, makes the scan
    raise; without one the scan returns. *)
Lemma scan_directory_outcome content :
  ∀ root file_clusters,
    if reaches_unreadable content
    then scan_directory root content file_clusters = Raise OSError
    else ∃ file_clusters', scan_directory root content file_clusters = Ok file_clusters'.
Proof.
  revert content. fix IH 1. intros [|entries] root file_clusters.
  - reflexivity.
  - simpl. revert file_clusters.
    induction entries as [|e rest IHrest]; intros file_clusters.
    + simpl. by eexists.
    + simpl existsb. destruct e as [name q|name sub|name].
      * simpl orb. destruct (get_file_clusters q); apply IHrest.
      * destruct (valid_directory name) eqn:Hvalid; simpl andb; [|apply IHrest].
        specialize (IH sub (entry_path root name) file_clusters).
        destruct (reaches_unreadable sub); simpl orb.
        -- by rewrite IH.
        -- destruct IH as [file_clusters' ->]. apply IHrest.
      * simpl orb. apply IHrest.
Qed.

Lemma run_tasks_outcome disk_name entries :
  ∀ file_clusters,
    if reaches_unreadable (Listing entries)
    then run_tasks (submitted disk_name entries) file_clusters = Raise OSError
    else ∃ file_clusters',
           run_tasks (submitted disk_name entries) file_clusters = Ok file_clusters'.
Proof.
  induction entries as [|e rest IHrest]; intros file_clusters.
  - simpl. by eexists.
  - simpl reaches_unreadable in *. unfold submitted in *. simpl omap.
    destruct e as [name q|name sub|name]; simpl orb; try apply IHrest.
    destruct (valid_directory name); simpl andb; [|apply IHrest].
    simpl run_tasks.
    pose proof (scan_directory_outcome sub (entry_path disk_name name) file_clusters) as Hsub.
    destruct (reaches_unreadable sub); simpl orb.
    + by rewrite Hsub.
    + destruct Hsub as [file_clusters' ->]. rewrite bind_Ok. apply IHrest.
Qed.

(** C7.  When the scan reaches a directory that cannot be listed, the whole
    scan raises and no map is returned. *)
Theorem get_files_with_clusters_aborts disk volume :
  reaches_unreadable volume = true →
  get_files_with_clusters disk volume = Raise OSError.
Proof.
  intros H. unfold get_files_with_clusters.
  destruct volume as [|entries]; [done|].
  pose proof (run_tasks_outcome (disk ++ "\")%string entries []) as Hrun.
  rewrite H in Hrun. by rewrite Hrun.
Qed.

(** When every directory that the scan reaches can be listed, the scan
    returns a map; a file whose query fails is left out of it. *)
Lemma get_files_with_clusters_returns disk volume :
  reaches_unreadable volume = false →
  ∃ files, get_files_with_clusters disk volume = Ok files.
Proof.
  intros H. unfold get_files_with_clusters.
  destruct volume as [|entries]; [done|].
  pose proof (run_tasks_outcome (disk ++ "\")%string entries []) as Hrun.
  rewrite H in Hrun. destruct Hrun as [file_clusters ->]. by eexists.
Qed.

(** ** The invariant of the window *)

Lemma dict_set_keys {K V} `{EqDecision K} (d : list (K * V)) k v :
  (dict_set d k v).*1 = if decide (k ∈ d.*1) then d.*1 else d.*1 ++ [k].
Proof.
  induction d as [|[k' v'] d IH].
  - simpl. destruct (decide (k ∈ [])) as [Hin|]; [by apply elem_of_nil in Hin | done].
  - cbn [dict_set fmap list_fmap fst].
    destruct (decide (k = k')) as [->|Hne].
    + cbn [fmap list_fmap fst].
      destruct (decide (k' ∈ k' :: d.*1)) as [|Hnin]; [done|].
      destruct Hnin. by left.
    + cbn [fmap list_fmap fst]. rewrite IH.
      destruct (decide (k ∈ d.*1)) as [Hin|Hnin];
        destruct (decide (k ∈ k' :: d.*1)) as [Hin'|Hnin']; try done.
      * destruct Hnin'. by right.
      * apply elem_of_cons in Hin' as [?|?]; done.
Qed.

Lemma dict_set_wf {K V} `{EqDecision K} (d : list (K * V)) k v :
  dict_wf d → dict_wf (dict_set d k v).
Proof.
  unfold dict_wf. rewrite dict_set_keys. intros Hnd.
  destruct (decide (k ∈ d.*1)); [done|].
  apply NoDup_app. split; [done|]. split; [|apply NoDup_singleton].
  intros x Hx ->%list_elem_of_singleton. done.
Qed.

Lemma dict_set_elem_of {K V} `{EqDecision K} (d : list (K * V)) k v p g :
  (p, g) ∈ dict_set d k v → (p, g) ∈ d ∨ (p, g) = (k, v).
Proof.
  induction d as [|[k' v'] d IH]; simpl.
  - intros ->%list_elem_of_singleton. by right.
  - destruct (decide (k = k')) as [->|].
    + intros [->|?]%elem_of_cons; [by right | left; by right].
    + intros [->|[?|?]%IH]%elem_of_cons; [left; by left | left; by right | by right].
Qed.

Lemma scan_directory_wf content :
  ∀ root file_clusters file_clusters',
    dict_wf file_clusters →
    scan_directory root content file_clusters = Ok file_clusters' →
    dict_wf file_clusters'.
Proof.
  revert content. fix IH 1. intros [|entries] root file_clusters file_clusters'.
  - done.
  - simpl. revert file_clusters.
    induction entries as [|e rest IHrest]; intros file_clusters Hwf Hrun.
    + by injection Hrun as <-.
    + destruct e as [name q|name sub|name].
      * destruct (get_file_clusters q); [by eapply IHrest|].
        eapply IHrest; [|exact Hrun]. by apply dict_set_wf.
      * destruct (valid_directory name); [|by eapply IHrest].
        destruct (scan_directory (entry_path root name) sub file_clusters)
          as [file_clusters1|] eqn:Hsub; [|done].
        eapply IHrest; [|exact Hrun]. by eapply IH.
      * by eapply IHrest.
Qed.

Lemma run_tasks_wf tasks :
  ∀ file_clusters file_clusters',
    dict_wf file_clusters →
    run_tasks tasks file_clusters = Ok file_clusters' →
    dict_wf file_clusters'.
Proof.
  induction tasks as [|[path sub] tasks IH]; intros file_clusters file_clusters' Hwf Hrun.
  - by injection Hrun as <-.
  - simpl in Hrun.
    destruct (scan_directory path sub file_clusters) as [file_clusters1|] eqn:Hsub;
      [|done].
    rewrite bind_Ok in Hrun. eapply IH; [|exact Hrun]. by eapply scan_directory_wf.
Qed.

Lemma path_keys_from (file_clusters : list (string * list (Z * Z))) :
  ∀ d : list (Path * list (Z * Z)),
    let d' := foldl (fun d item => dict_set d (as_path item.1) item.2) d file_clusters in
    (dict_wf d → dict_wf d') ∧
    ∀ p g, (p, g) ∈ d' → (p, g) ∈ d ∨ ∃ s, (s, g) ∈ file_clusters ∧ p = as_path s.
Proof.
  induction file_clusters as [|[s0 g0] file_clusters IH]; intros d; simpl.
  - split; [done | by left].
  - destruct (IH (dict_set d (as_path s0) g0)) as [IHwf IHin]. split.
    + intros Hwf. by apply IHwf, dict_set_wf.
    + intros p g [[Hd|[= -> ->]]%dict_set_elem_of|(s & Hs & ->)]%IHin.
      * by left.
      * right. exists s0. split; [by left | done].
      * right. exists s. split; [by right | done].
Qed.

Lemma path_keys_wf file_clusters : dict_wf (path_keys file_clusters).
Proof. apply (path_keys_from file_clusters []). unfold dict_wf. constructor. Qed.

Lemma path_keys_elem_of file_clusters p g :
  (p, g) ∈ path_keys file_clusters → ∃ s, (s, g) ∈ file_clusters ∧ p = as_path s.
Proof.
  intros [?%elem_of_nil|?]%(proj2 (path_keys_from file_clusters [])); done.
Qed.

Lemma get_files_with_clusters_wf disk volume files :
  get_files_with_clusters disk volume = Ok files → dict_wf files.
Proof.
  unfold get_files_with_clusters. destruct volume as [|entries]; [done|].
  destruct (run_tasks _ _) as [file_clusters|]; [|done].
  rewrite bind_Ok. intros [= <-]. apply path_keys_wf.
Qed.

Lemma grows_window_ok self self' new :
  grows self self' new → window_ok self → window_ok self'.
Proof.
  intros (_ & _ & Hg & Hp & Hm & _) [Hwf Hcons].
  unfold window_ok, highlight_consistent in *. by rewrite Hg, Hp, Hm.
Qed.

Lemma init_ok : window_ok init.
Proof. split; [constructor | done]. Qed.

Lemma display_clusters_near_highlighted_ok fsinfo self self' :
  display_clusters_near_highlighted fsinfo self = Ok self' →
  window_ok self → window_ok self'.
Proof.
  unfold display_clusters_near_highlighted.
  destruct (disk_clusters_of fsinfo self) as [d|]; [|done].
  rewrite bind_Ok. intros [= <-].
  destruct (display_group_grows d (cluster_group self) self) as (new & Hg & _).
  by eapply grows_window_ok.
Qed.

Lemma load_clusters_ok text path_exists disk volume fsinfo self self' :
  load_clusters text path_exists disk volume fsinfo self = Ok self' →
  window_ok self → window_ok self'.
Proof.
  unfold load_clusters. destruct path_exists; [|by intros [= <-]].
  destruct (get_files_with_clusters disk volume) as [files|] eqn:Hscan; [|done].
  rewrite bind_Ok. intros Hrun _.
  eapply display_clusters_near_highlighted_ok; [exact Hrun|].
  split; simpl; [by eapply get_files_with_clusters_wf | done].
Qed.

Lemma load_additional_clusters_ok fsinfo above self self' :
  load_additional_clusters fsinfo above self = Ok self' →
  window_ok self → window_ok self'.
Proof.
  unfold load_additional_clusters.
  destruct (disk_clusters_of fsinfo self) as [d|]; [|done]. rewrite bind_Ok.
  destruct (if bool_decide _ then py_min _ else _) as [lo|]; [|done]. rewrite bind_Ok.
  destruct (if bool_decide _ then py_max _ else _) as [hi|]; [|done]. rewrite bind_Ok.
  destruct (if above then _ else _) as [start end_].
  intros [= <-]. eapply grows_window_ok.
  apply (foldl_grows (fun _ => true) load_cluster load_cluster_grows).
Qed.

Lemma handle_cluster_click_ok self idx :
  window_ok self → window_ok (handle_cluster_click self idx).1.
Proof.
  intros [Hwf Hcons]. split; [|by apply handle_cluster_click_consistent].
  unfold handle_cluster_click. destruct (search_files _ _) as [[p|] g]; [|done].
  by case_bool_decide.
Qed.

(** ** More on scrolls *)

(** Whenever a scroll returns, it has added the clusters that [fresh] keeps
    of some list. *)
Lemma load_additional_clusters_grows fsinfo above self self' :
  load_additional_clusters fsinfo above self = Ok self' →
  ∃ l, grows self self' (fresh (fun _ => true) (loaded_clusters self) l).
Proof.
  unfold load_additional_clusters.
  destruct (disk_clusters_of fsinfo self) as [d|]; [|done]. rewrite bind_Ok.
  destruct (if bool_decide _ then py_min _ else _) as [lo|]; [|done]. rewrite bind_Ok.
  destruct (if bool_decide _ then py_max _ else _) as [hi|]; [|done]. rewrite bind_Ok.
  destruct (if above then _ else _) as [start end_].
  intros [= <-]. eexists.
  apply (foldl_grows (fun _ => true) load_cluster load_cluster_grows).
Qed.

(** X1.  A scroll that returns only adds: the clusters it adds were not
    loaded, get one button each and are loaded afterwards together with the
    old ones; the old buttons stay in front, and the highlighted file, its
    ranges, the map and the margin are as before. *)
Theorem load_additional_clusters_only_adds fsinfo above self self' :
  load_additional_clusters fsinfo above self = Ok self' →
  loaded_clusters self' = loaded_clusters self ∪ list_to_set (materialized self self') ∧
  NoDup (materialized self self') ∧
  (∀ i, i ∈ materialized self self' → i ∉ loaded_clusters self) ∧
  (∃ btns, cluster_buttons self' = cluster_buttons self ++ btns) ∧
  cluster_group self' = cluster_group self ∧
  file_path self' = file_path self ∧
  file_clusters_map self' = file_clusters_map self ∧
  visible_range self' = visible_range self.
Proof.
  intros Hrun. destruct (load_additional_clusters_grows _ _ _ _ Hrun) as (l & Hg).
  rewrite (grows_materialized _ _ _ Hg).
  destruct Hg as ((btns & Hb & _) & Hl & Hgr & Hp & Hm & Hv).
  split; [done|]. split; [apply NoDup_fresh|].
  split; [by intros i (_ & _ & ?)%elem_of_fresh|].
  split; [by exists btns|]. done.
Qed.

Lemma py_min_unique (s : gset Z) m :
  m ∈ s → (∀ y, y ∈ s → m ≤ y) → py_min s = Ok m.
Proof.
  intros Hin Hle. destruct (py_min_spec s) as (m' & -> & Hin' & Hle'); [set_solver|].
  f_equal. specialize (Hle m' Hin'). specialize (Hle' m Hin). lia.
Qed.

Lemma py_max_unique (s : gset Z) m :
  m ∈ s → (∀ y, y ∈ s → y ≤ m) → py_max s = Ok m.
Proof.
  intros Hin Hle. destruct (py_max_spec s) as (m' & -> & Hin' & Hle'); [set_solver|].
  f_equal. specialize (Hle m' Hin'). specialize (Hle' m Hin). lia.
Qed.

(** X2.  A scroll works on one side only.  With [lo] the least and [hi] the
    greatest loaded cluster: scrolling up adds clusters below [lo] only and
    the greatest loaded cluster stays [hi]; scrolling down adds clusters
    above [hi] only and the least loaded cluster stays [lo]. *)
Theorem load_additional_clusters_one_side fsinfo above self self' lo hi :
  py_min (loaded_clusters self) = Ok lo →
  py_max (loaded_clusters self) = Ok hi →
  load_additional_clusters fsinfo above self = Ok self' →
  if above
  then (∀ i, i ∈ materialized self self' → i < lo) ∧
       py_max (loaded_clusters self') = Ok hi
  else (∀ i, i ∈ materialized self self' → hi < i) ∧
       py_min (loaded_clusters self') = Ok lo.
Proof.
  intros Hlo Hhi Hrun.
  assert (Hne : loaded_clusters self ≠ ∅).
  { intros He. unfold py_min in Hlo. by rewrite He, elements_empty in Hlo. }
  assert (∃ total, disk_clusters_of fsinfo self = Ok total) as [total Hd].
  { unfold load_additional_clusters in Hrun.
    destruct (disk_clusters_of fsinfo self); [by eexists | done]. }
  destruct (load_additional_clusters_range fsinfo above self total Hd Hne)
    as (self1 & lo1 & hi1 & Hrun1 & Hlo1 & Hhi1 & Hg & _ & Hm).
  rewrite Hrun in Hrun1. injection Hrun1 as <-.
  rewrite Hlo in Hlo1. injection Hlo1 as <-.
  rewrite Hhi in Hhi1. injection Hhi1 as <-.
  destruct (py_min_spec _ Hne) as (lo' & Hlo' & Hlo_in & Hlo_le).
  destruct (py_max_spec _ Hne) as (hi' & Hhi' & Hhi_in & Hhi_le).
  rewrite Hlo in Hlo'. injection Hlo' as <-.
  rewrite Hhi in Hhi'. injection Hhi' as <-.
  destruct Hg as (_ & Hl & _).
  destruct above.
  - split; [intros i Hi%Hm; lia|].
    apply py_max_unique; rewrite Hl; [set_solver|].
    intros y [Hy|Hy%elem_of_list_to_set]%elem_of_union; [by apply Hhi_le|].
    apply Hm in Hy. specialize (Hlo_le hi Hhi_in). lia.
  - split; [intros i Hi%Hm; lia|].
    apply py_min_unique; rewrite Hl; [set_solver|].
    intros y [Hy|Hy%elem_of_list_to_set]%elem_of_union; [by apply Hlo_le|].
    apply Hm in Hy. specialize (Hhi_le lo Hlo_in). lia.
Qed.

Lemma filter_all {A} (P : A → Prop) `{!∀ x, Decision (P x)} (l : list A) :
  (∀ x, x ∈ l → P x) → filter P l = l.
Proof.
  induction l as [|x l IH]; intros Hall; [done|].
  rewrite filter_cons_True by (apply Hall; by left).
  f_equal. apply IH. intros y Hy. apply Hall. by right.
Qed.

Lemma fresh_unloaded (X : gset Z) l :
  NoDup l → (∀ i, i ∈ l → i ∉ X) → fresh (fun _ => true) X l = l.
Proof.
  intros Hnd Hl. rewrite fresh_filter by done. apply filter_all; auto.
Qed.

(** X3.  With nothing loaded the least and the greatest loaded cluster count
    as 0: scrolling up adds nothing, and scrolling down adds the clusters
    from 2 to the smaller of the margin and the number of clusters of the
    disk. *)
Theorem load_additional_clusters_nothing_loaded fsinfo above self total :
  disk_clusters_of fsinfo self = Ok total →
  loaded_clusters self = ∅ →
  ∃ self',
    load_additional_clusters fsinfo above self = Ok self' ∧
    materialized self self' =
      if above then [] else range 2 (Z.min (visible_range self) total + 1).
Proof.
  intros Hd Hl.
  destruct (load_additional_clusters_fresh fsinfo above self total 0 0 Hd)
    as (self' & Hrun & Hg).
  { rewrite Hl. by rewrite bool_decide_eq_false_2 by (by intros ?). }
  { rewrite Hl. by rewrite bool_decide_eq_false_2 by (by intros ?). }
  exists self'. split; [exact Hrun|].
  rewrite (grows_materialized _ _ _ Hg), Hl.
  rewrite fresh_unloaded; [| destruct above; apply NoDup_range | set_solver].
  destruct above; [|done].
  unfold range. apply seqZ_nil. lia.
Qed.

(** X4.  At the edges of the disk a scroll changes nothing: scrolling up when
    the least loaded cluster is 0 (or less), and scrolling down when the
    greatest loaded cluster is the last one of the disk (or beyond). *)
Theorem load_additional_clusters_at_edge fsinfo (above : bool) self total lo hi :
  disk_clusters_of fsinfo self = Ok total →
  py_min (loaded_clusters self) = Ok lo →
  py_max (loaded_clusters self) = Ok hi →
  (if above then lo ≤ 0 else total ≤ hi + 1) →
  load_additional_clusters fsinfo above self = Ok self.
Proof.
  intros Hd Hlo Hhi Hedge.
  assert (Hne : loaded_clusters self ≠ ∅).
  { intros He. unfold py_min in Hlo. by rewrite He, elements_empty in Hlo. }
  destruct (load_additional_clusters_range fsinfo above self total Hd Hne)
    as (self' & lo1 & hi1 & Hrun & Hlo1 & Hhi1 & Hg & _ & Hm).
  rewrite Hlo in Hlo1. injection Hlo1 as <-.
  rewrite Hhi in Hhi1. injection Hhi1 as <-.
  rewrite Hrun. f_equal.
  assert (Hnone : materialized self self' = []).
  { apply nil_no_elem. intros i Hi%Hm. destruct above; lia. }
  rewrite Hnone in Hg. by apply grows_nil_eq.
Qed.

(** ** What the window keeps *)

Lemma foldl_keeps {A} (P : Window → Prop) (step : Window → A → Window) :
  (∀ self x, P self → P (step self x)) →
  ∀ l self, P self → P (foldl step self l).
Proof.
  intros Hstep l. induction l as [|x l IH]; intros self H; [done|].
  simpl. apply IH, Hstep, H.
Qed.

Lemma add_button_styles self i :
  styles_ok self → styles_ok (add_loaded (add_cluster_button self i) i).
Proof.
  intros H b Hb. simpl in Hb.
  apply elem_of_app in Hb as [Hb|Hb%list_elem_of_singleton].
  - exact (H b Hb).
  - subst b. reflexivity.
Qed.

Lemma display_styles d g self :
  styles_ok self → styles_ok (foldl (display_extent d) self g).
Proof.
  apply foldl_keeps. clear self. intros self [s e]. unfold display_extent.
  generalize (range (s - visible_range self) (e + visible_range self + 1)).
  intros l. revert self. apply foldl_keeps. intros self i H.
  unfold display_cluster. destruct (_ && _); [by apply add_button_styles | done].
Qed.

Lemma display_clusters_near_highlighted_styles fsinfo self self' :
  display_clusters_near_highlighted fsinfo self = Ok self' →
  styles_ok self → styles_ok self'.
Proof.
  unfold display_clusters_near_highlighted.
  destruct (disk_clusters_of fsinfo self) as [d|]; [|done].
  rewrite bind_Ok. intros [= <-]. apply display_styles.
Qed.

Lemma load_additional_clusters_styles fsinfo above self self' :
  load_additional_clusters fsinfo above self = Ok self' →
  styles_ok self → styles_ok self'.
Proof.
  unfold load_additional_clusters.
  destruct (disk_clusters_of fsinfo self) as [d|]; [|done]. rewrite bind_Ok.
  destruct (if bool_decide _ then py_min _ else _) as [lo|]; [|done]. rewrite bind_Ok.
  destruct (if bool_decide _ then py_max _ else _) as [hi|]; [|done]. rewrite bind_Ok.
  destruct (if above then _ else _) as [start end_].
  intros [= <-]. apply foldl_keeps. intros w i H.
  unfold load_cluster. destruct (negb _); [by apply add_button_styles | done].
Qed.

Lemma highlighted_in_map self i :
  highlight_consistent self →
  in_group i (cluster_group self) = true →
  existsb (fun item : Path * list (Z * Z) => in_group i item.2)
          (file_clusters_map self) = true.
Proof.
  unfold highlight_consistent. intros Hcons Hin.
  destruct (file_path self) as [p|]; [|by rewrite Hcons in Hin].
  rewrite Hcons in Hin. pose proof (dict_get_in_group _ _ _ Hin) as Hmem.
  apply existsb_exists. exists (p, dict_get (file_clusters_map self) p []).
  split; [by apply list_elem_of_In | exact Hin].
Qed.

Lemma restyle_index old_group new_group b :
  Window.index (restyle old_group new_group b) = Window.index b.
Proof.
  unfold restyle. destruct (in_group (Window.index b) old_group); simpl;
    by destruct (in_group (Window.index b) new_group).
Qed.

Lemma restyle_indices old_group new_group (btns : list Button) :
  Window.index <$> (restyle old_group new_group <$> btns) = Window.index <$> btns.
Proof.
  rewrite <- list_fmap_compose. apply list_fmap_ext. intros _ b _.
  apply restyle_index.
Qed.

Lemma handle_cluster_click_styles self idx :
  highlight_consistent self → styles_ok self →
  styles_ok (handle_cluster_click self idx).1.
Proof.
  intros Hcons Hst. unfold handle_cluster_click.
  destruct (search_files idx (file_clusters_map self)) as [[p|] g]; [|done].
  case_bool_decide; [done|]. simpl.
  intros b' (b & -> & Hb)%list_elem_of_fmap. specialize (Hst b Hb).
  unfold style_of in *. simpl. rewrite restyle_index. unfold restyle.
  destruct (in_group (Window.index b) (cluster_group self)) eqn:Hold; simpl.
  - rewrite (highlighted_in_map self _ Hcons Hold).
    by destruct (in_group (Window.index b) g).
  - by destruct (in_group (Window.index b) g).
Qed.

Lemma grows_buttons_ok self self' new :
  grows self self' new → NoDup new → (∀ i, i ∈ new → i ∉ loaded_clusters self) →
  buttons_ok self → buttons_ok self'.
Proof.
  intros ((btns & Hb & Hi) & Hl & _) Hnd Hnew [Hnd0 Hl0].
  unfold buttons_ok. rewrite Hb, fmap_app, Hi, Hl, list_to_set_app_L, <- Hl0.
  split; [|done].
  apply NoDup_app. split; [done|]. split; [|done].
  intros i Hi0 Hi1. apply (Hnew i Hi1). rewrite Hl0. by apply elem_of_list_to_set.
Qed.

Lemma display_clusters_near_highlighted_buttons fsinfo self self' :
  display_clusters_near_highlighted fsinfo self = Ok self' →
  buttons_ok self → buttons_ok self'.
Proof.
  unfold display_clusters_near_highlighted.
  destruct (disk_clusters_of fsinfo self) as [d|]; [|done].
  rewrite bind_Ok. intros [= <-].
  destruct (display_group_grows d (cluster_group self) self) as (new & Hg & Hnd & Hnew).
  apply (grows_buttons_ok _ _ _ Hg Hnd). intros i Hi%Hnew. tauto.
Qed.

Lemma load_additional_clusters_buttons fsinfo above self self' :
  load_additional_clusters fsinfo above self = Ok self' →
  buttons_ok self → buttons_ok self'.
Proof.
  intros (l & Hg)%load_additional_clusters_grows.
  apply (grows_buttons_ok _ _ _ Hg); [apply NoDup_fresh|].
  by intros i (_ & _ & ?)%elem_of_fresh.
Qed.

Lemma handle_cluster_click_buttons self idx :
  buttons_ok self → buttons_ok (handle_cluster_click self idx).1.
Proof.
  intros Hok. unfold handle_cluster_click.
  destruct (search_files idx (file_clusters_map self)) as [[p|] g]; [|done].
  case_bool_decide; [done|].
  unfold buttons_ok. simpl. by rewrite restyle_indices.
Qed.

(** What a load that returns has done. *)
Lemma load_clusters_inv text disk volume fsinfo self self' :
  load_clusters text true disk volume fsinfo self = Ok self' →
  ∃ files total new,
    get_files_with_clusters disk volume = Ok files ∧
    get_disk_clusters fsinfo = Ok total ∧
    grows {| loaded_clusters := ∅;
             cluster_group := dict_get files (as_path text) [];
             file_path := Some (as_path text);
             file_clusters_map := files;
             visible_range := visible_range self;
             cluster_buttons := cluster_buttons self |} self' new ∧
    NoDup new ∧
    ∀ i, i ∈ new ↔
         near (visible_range self) (dict_get files (as_path text) []) i ∧ 0 ≤ i < total.
Proof.
  unfold load_clusters.
  destruct (get_files_with_clusters disk volume) as [files|]; [|done].
  rewrite bind_Ok. unfold display_clusters_near_highlighted, disk_clusters_of.
  cbn [file_path].
  destruct (get_disk_clusters fsinfo) as [total|]; [|done].
  rewrite bind_Ok. intros [= <-].
  match goal with
  | |- context [foldl _ ?w _] =>
      destruct (display_group_grows total (cluster_group w) w) as (new & Hg & Hnd & Hnew)
  end.
  exists files, total, new. split; [done|]. split; [done|]. split; [exact Hg|].
  split; [done|]. intros i. rewrite Hnew. simpl. set_solver.
Qed.

Lemma load_clusters_first_ok text disk volume fsinfo self self' :
  cluster_buttons self = [] →
  load_clusters text true disk volume fsinfo self = Ok self' →
  window_ok self' ∧ styles_ok self' ∧ buttons_ok self'.
Proof.
  intros Hnone Hrun. pose proof Hrun as Hrun'.
  unfold load_clusters in Hrun'.
  destruct (get_files_with_clusters disk volume) as [files|] eqn:Hscan; [|done].
  rewrite bind_Ok in Hrun'. rewrite Hnone in Hrun'.
  split; [|split].
  - eapply display_clusters_near_highlighted_ok; [exact Hrun'|].
    split; simpl; [by eapply get_files_with_clusters_wf | done].
  - eapply display_clusters_near_highlighted_styles; [exact Hrun'|].
    by intros b ?%elem_of_nil.
  - eapply display_clusters_near_highlighted_buttons; [exact Hrun'|].
    split; simpl; [constructor | done].
Qed.

Lemma session_keeps self :
  session self → window_ok self ∧ styles_ok self ∧ buttons_ok self.
Proof.
  induction 1 as [text disk volume fsinfo self self' Hnone Hrun
                 |fsinfo above self self' _ (Hw & Hs & Hb) Hrun
                 |self idx _ (Hw & Hs & Hb)].
  - by eapply load_clusters_first_ok.
  - split; [by eapply load_additional_clusters_ok|].
    split; [by eapply load_additional_clusters_styles
           | by eapply load_additional_clusters_buttons].
  - split; [by apply handle_cluster_click_ok|].
    split; [apply handle_cluster_click_styles; [apply Hw | done]
           | by apply handle_cluster_click_buttons].
Qed.

(** X5.  In a session (one load on a window without buttons, then scrolls
    and clicks) the buttons are exactly those of the loaded clusters, and no
    cluster has two buttons. *)
Theorem session_buttons self : session self → buttons_ok self.
Proof. intros H. apply (session_keeps self H). Qed.

(** X6.  In a session every button has the colour of its cluster: yellow in
    the highlighted ranges, blue in the ranges of another file of the map,
    gray in no file. *)
Theorem session_styles self : session self → styles_ok self.
Proof. intros H. apply (session_keeps self H). Qed.

(** X7.  From [__init__] on, whatever is loaded, scrolled and clicked, the
    keys of the map are distinct and the highlighted ranges are those that
    the map has for the highlighted file (none when it has none). *)
Theorem reachable_window_ok self : reachable self → window_ok self.
Proof.
  induction 1 as [|text path_exists disk volume fsinfo self self' _ IH Hrun
                  |fsinfo above self self' _ IH Hrun
                  |self idx _ IH].
  - apply init_ok.
  - by eapply load_clusters_ok.
  - by eapply load_additional_clusters_ok.
  - by apply handle_cluster_click_ok.
Qed.

Lemma grows_loaded_has_button self self' new :
  grows self self' new →
  (∀ i, i ∈ loaded_clusters self → i ∈ Window.index <$> cluster_buttons self) →
  ∀ i, i ∈ loaded_clusters self' → i ∈ Window.index <$> cluster_buttons self'.
Proof.
  intros ((btns & Hb & Hi) & Hl & _) H i.
  rewrite Hl, Hb, fmap_app, Hi, elem_of_union, elem_of_app, elem_of_list_to_set.
  intros [?|?]; [left; by apply H | by right].
Qed.

(** X8.  From [__init__] on, every loaded cluster has a button, also
    after a new load (which forgets the loaded clusters and keeps the
    buttons). *)
Theorem reachable_loaded_has_button self :
  reachable self →
  ∀ i, i ∈ loaded_clusters self → i ∈ Window.index <$> cluster_buttons self.
Proof.
  induction 1 as [|text path_exists disk volume fsinfo self self' _ IH Hrun
                  |fsinfo above self self' _ IH Hrun
                  |self idx _ IH].
  - intros i Hi. simpl in Hi. set_solver.
  - destruct path_exists; [|by injection Hrun as <-].
    apply load_clusters_inv in Hrun as (files & total & new & _ & _ & Hg & _).
    apply (grows_loaded_has_button _ _ _ Hg). simpl. set_solver.
  - apply load_additional_clusters_grows in Hrun as (l & Hg).
    by apply (grows_loaded_has_button _ _ _ Hg).
  - intros i. unfold handle_cluster_click.
    destruct (search_files idx (file_clusters_map self)) as [[p|] g]; [|by apply IH].
    case_bool_decide; [by apply IH|]. simpl. rewrite restyle_indices. by apply IH.
Qed.

(** X9.  A load that returns makes the path typed in, as a [Path] object,
    the highlighted file, with the ranges that the fresh map has under a key
    equal to it (none when it has none); the loaded clusters are then exactly
    the clusters of the disk within the margin of these ranges, whatever was
    loaded before; and the buttons of before stay, followed by one new button
    for each loaded cluster. *)
Theorem load_clusters_reloads text disk volume fsinfo self self' :
  load_clusters text true disk volume fsinfo self = Ok self' →
  ∃ files total,
    get_files_with_clusters disk volume = Ok files ∧
    get_disk_clusters fsinfo = Ok total ∧
    file_clusters_map self' = files ∧
    file_path self' = Some (as_path text) ∧
    cluster_group self' = dict_get files (as_path text) [] ∧
    (∀ i, i ∈ loaded_clusters self' ↔
          near (visible_range self) (dict_get files (as_path text) []) i ∧
          0 ≤ i < total) ∧
    ∃ btns, cluster_buttons self' = cluster_buttons self ++ btns ∧
            NoDup (Window.index <$> btns) ∧
            loaded_clusters self' = list_to_set (Window.index <$> btns).
Proof.
  intros (files & total & new & Hscan & Hd & Hg & Hnd & Hnew)%load_clusters_inv.
  destruct Hg as ((btns & Hb & Hi) & Hl & Hgr & Hp & Hm & _). simpl in *.
  exists files, total. repeat (split; [done|]). split.
  - intros i. rewrite Hl, <- Hnew. set_solver.
  - exists btns. rewrite Hi. split; [done|]. split; [done|]. set_solver.
Qed.

(** X10.  A load for a path that the fresh map has no ranges for under any
    key equal to it (a file that the scan did not reach, or without extents)
    leaves no cluster loaded and adds no button. *)
Theorem load_clusters_unmapped text disk volume fsinfo self self' :
  load_clusters text true disk volume fsinfo self = Ok self' →
  dict_get (file_clusters_map self') (as_path text) [] = [] →
  loaded_clusters self' = ∅ ∧ cluster_buttons self' = cluster_buttons self.
Proof.
  intros (files & total & new & Hscan & Hd & Hg & Hnd & Hnew)%load_clusters_inv Hnone.
  assert (Hm : file_clusters_map self' = files) by apply Hg.
  rewrite Hm in Hnone.
  assert (new = []) as ->.
  { apply nil_no_elem. intros i [(s & e & Hin & _) _]%Hnew.
    rewrite Hnone in Hin. by apply elem_of_nil in Hin. }
  apply grows_nil_eq in Hg. by rewrite Hg.
Qed.

(** X11.  A second click on the same cluster changes nothing more: after a
    click that made another file the highlighted one, it opens the detail
    window of that file; otherwise it does what the first click did. *)
Theorem handle_cluster_click_twice self idx :
  handle_cluster_click (handle_cluster_click self idx).1 idx =
    ((handle_cluster_click self idx).1,
     match (handle_cluster_click self idx).2 with
     | OtherFileSelected p g => SameFileDetail idx p g
     | outcome => outcome
     end).
Proof.
  unfold handle_cluster_click at 2 3 4.
  destruct (search_files idx (file_clusters_map self)) as [[p|] g] eqn:Hs.
  - case_bool_decide as Hp; simpl.
    + unfold handle_cluster_click. rewrite Hs. by rewrite bool_decide_eq_true_2.
    + unfold handle_cluster_click. simpl. rewrite Hs. simpl.
      by rewrite bool_decide_eq_true_2.
  - simpl. unfold handle_cluster_click. by rewrite Hs.
Qed.

Lemma grid_cell_inj width i j c :
  grid_cell width i = Some c → grid_cell width j = Some c → i = j.
Proof.
  unfold grid_cell. destruct (get_columns_count width =? 0) eqn:Hc; [done|].
  apply Z.eqb_neq in Hc. intros [= <-] [= Hq Hr].
  rewrite (Z.div_mod i _ Hc), (Z.div_mod j _ Hc). congruence.
Qed.

(** X12.  In a session, with a scroll area wide enough for a column, no two
    buttons are laid out in the same cell of the grid. *)
Theorem session_cells_distinct self width :
  session self →
  get_columns_count width ≠ 0 →
  NoDup ((fun b => grid_cell width (Window.index b)) <$> cluster_buttons self).
Proof.
  intros [Hnd _]%session_keeps%proj2%proj2 Hc.
  rewrite (list_fmap_compose Window.index (grid_cell width)).
  apply NoDup_fmap_2_strong; [|done].
  intros i j _ _ Heq. apply Z.eqb_neq in Hc.
  assert (∃ c, grid_cell width i = Some c) as [c Hi].
  { unfold grid_cell. rewrite Hc. by eexists. }
  rewrite Hi in Heq. by apply (grid_cell_inj width i j c).
Qed.

(** ** More on the scan *)

(** X13.  The scan returns a map exactly when it reaches no directory that
    cannot be listed; what the queries of the files answer plays no part. *)
Theorem get_files_with_clusters_returns_iff disk volume :
  (∃ files, get_files_with_clusters disk volume = Ok files) ↔
  reaches_unreadable volume = false.
Proof.
  unfold get_files_with_clusters. destruct volume as [|entries].
  - split; [by intros [? ?] | done].
  - pose proof (run_tasks_outcome (disk ++ "\")%string entries []) as Hrun.
    destruct (reaches_unreadable (Listing entries)).
    + rewrite Hrun. split; [by intros [? ?] | done].
    + destruct Hrun as [file_clusters ->]. split; [done|]. intros _. by eexists.
Qed.

Lemma submitted_filter disk_name entries :
  submitted disk_name (filter (fun e => scanned_at_root e = true) entries) =
  submitted disk_name entries.
Proof.
  unfold submitted. induction entries as [|e entries IH]; [done|].
  rewrite filter_cons.
  destruct (decide (scanned_at_root e = true)) as [He|He].
  - cbn [omap list_omap]. destruct e as [name q|name sub|name]; try exact IH.
    destruct (valid_directory name); [f_equal|]; exact IH.
  - cbn [omap list_omap]. destruct e as [name q|name sub|name]; try exact IH.
    simpl in He. destruct (valid_directory name); [done | exact IH].
Qed.

(** X14.  Only the valid directories of the root of the disk are scanned:
    the files of the root itself, and everything else there, change nothing
    of the outcome. *)
Theorem get_files_with_clusters_root disk entries :
  get_files_with_clusters disk (Listing entries) =
  get_files_with_clusters disk
    (Listing (filter (fun e => scanned_at_root e = true) entries)).
Proof. unfold get_files_with_clusters. by rewrite submitted_filter. Qed.

Lemma scan_directory_values content :
  ∀ root file_clusters file_clusters',
    (∀ p g, (p, g) ∈ file_clusters → g ≠ []) →
    scan_directory root content file_clusters = Ok file_clusters' →
    ∀ p g, (p, g) ∈ file_clusters' → g ≠ [].
Proof.
  revert content. fix IH 1. intros [|entries] root file_clusters file_clusters'.
  - done.
  - simpl. revert file_clusters.
    induction entries as [|e rest IHrest]; intros file_clusters Hval Hrun.
    + by injection Hrun as <-.
    + destruct e as [name q|name sub|name].
      * destruct (get_file_clusters q) as [|r clusters] eqn:Hq; [by eapply IHrest|].
        eapply IHrest; [|exact Hrun].
        intros p g [?| [= -> ->]]%dict_set_elem_of; [by eapply Hval | done].
      * destruct (valid_directory name); [|by eapply IHrest].
        destruct (scan_directory (entry_path root name) sub file_clusters)
          as [file_clusters1|] eqn:Hsub; [|done].
        eapply IHrest; [|exact Hrun]. by eapply IH.
      * by eapply IHrest.
Qed.

Lemma run_tasks_values tasks :
  ∀ file_clusters file_clusters',
    (∀ p g, (p, g) ∈ file_clusters → g ≠ []) →
    run_tasks tasks file_clusters = Ok file_clusters' →
    ∀ p g, (p, g) ∈ file_clusters' → g ≠ [].
Proof.
  induction tasks as [|[path sub] tasks IH]; intros file_clusters file_clusters' Hval Hrun.
  - by injection Hrun as <-.
  - simpl in Hrun.
    destruct (scan_directory path sub file_clusters) as [file_clusters1|] eqn:Hsub;
      [|done].
    rewrite bind_Ok in Hrun. eapply IH; [|exact Hrun]. by eapply scan_directory_values.
Qed.

(** X15.  The map of a scan holds no file without ranges: every value is a
    list of at least one range. *)
Theorem get_files_with_clusters_no_empty disk volume files :
  get_files_with_clusters disk volume = Ok files →
  ∀ p g, (p, g) ∈ files → g ≠ [].
Proof.
  unfold get_files_with_clusters. destruct volume as [|entries]; [done|].
  destruct (run_tasks _ _) as [file_clusters|] eqn:Hrun; [|done].
  rewrite bind_Ok. intros [= <-] p g (s & Hs & _)%path_keys_elem_of.
  eapply (run_tasks_values _ _ _ (fun p g (H : (p, g) ∈ []) =>
                                    False_ind _ (proj1 (elem_of_nil _) H)) Hrun).
  exact Hs.
Qed.

(** ** More on the answers of [fsutil] *)

Lemma get_file_clusters_cases returncode stdout :
  get_file_clusters (Completed returncode stdout) = [] ∨
  ∃ runs,
    returncode = 0 ∧
    Forall2 (fun d run => reported_run d = Ok run) (records stdout) runs ∧
    get_file_clusters (Completed returncode stdout) = range_of_run <$> runs.
Proof.
  unfold get_file_clusters.
  destruct (returncode =? 0) eqn:Hrc; simpl negb; cbv iota; [|by left].
  apply Z.eqb_eq in Hrc.
  destruct (_ || _); [by left|].
  fold (records stdout).
  destruct (clusters_loop (records stdout) []) as [res|] eqn:Hloop; [|by left].
  apply clusters_loop_runs in Hloop as (runs & Hall & ->).
  right. by exists runs.
Qed.

(** X16.  One record of the answer that cannot be read (fewer than four
    words, or a start or a count that is not a hexadecimal number) makes
    [get_file_clusters] return no range at all, also for the records that
    can be read. *)
Theorem get_file_clusters_all_or_nothing returncode stdout d e :
  d ∈ records stdout →
  reported_run d = Raise e →
  get_file_clusters (Completed returncode stdout) = [].
Proof.
  intros Hd He.
  destruct (get_file_clusters_cases returncode stdout) as [H|(runs & _ & Hall & _)];
    [exact H|].
  apply Forall2_Forall_l with (Q := fun d => ∃ run, reported_run d = Ok run) in Hall.
  - rewrite Forall_forall in Hall. destruct (Hall d Hd) as [run Hrun]. congruence.
  - apply Forall_forall. intros run _ d' Hd'. by exists run.
Qed.

(** X17.  When [get_file_clusters] returns ranges, the query exited with
    status 0 and there is one range for each record of six words of the
    answer, in the order of the records: the start that the record reports,
    and that start plus the count minus 1. *)
Theorem get_file_clusters_one_per_record returncode stdout :
  get_file_clusters (Completed returncode stdout) ≠ [] →
  returncode = 0 ∧
  Forall2 (fun d r => ∃ start count,
             reported_run d = Ok (start, count) ∧ r = (start, start + count - 1))
          (records stdout) (get_file_clusters (Completed returncode stdout)).
Proof.
  intros Hne.
  destruct (get_file_clusters_cases returncode stdout) as [H|(runs & Hrc & Hall & ->)];
    [done|].
  split; [done|]. apply Forall2_fmap_r.
  eapply Forall2_impl; [exact Hall|].
  intros d [start count] Hd. by exists start, count.
Qed.

Lemma get_file_clusters_all_or_nothing_witness :
  [lit "VCN:"; lit "0x10"] ∈ records extents_cut ∧
  reported_run [lit "VCN:"; lit "0x10"] = Raise IndexError ∧
  get_file_clusters (Completed 0 extents_cut) = [].
Proof.
  assert (Hrec : [lit "VCN:"; lit "0x10"] ∈ records extents_cut).
  { assert (records extents_cut =
            [[lit "VCN:"; lit "0x0"; lit "Clusters:"; lit "0x10"; lit "LCN:"; lit "0x5"];
             [lit "VCN:"; lit "0x10"]]) as -> by (by vm_compute).
    apply list_elem_of_further, list_elem_of_here. }
  split; [exact Hrec|]. split; [reflexivity|].
  apply (get_file_clusters_all_or_nothing 0 extents_cut [lit "VCN:"; lit "0x10"]
           IndexError Hrec). reflexivity.
Defined.

Lemma get_file_clusters_one_per_record_witness :
  get_file_clusters (Completed 0 extents_two_runs) ≠ [] ∧
  Forall2 (fun d r => ∃ start count,
             reported_run d = Ok (start, count) ∧ r = (start, start + count - 1))
          (records extents_two_runs) (get_file_clusters (Completed 0 extents_two_runs)).
Proof.
  assert (Hne : get_file_clusters (Completed 0 extents_two_runs) ≠ []).
  { vm_compute. discriminate. }
  split; [exact Hne|].
  apply (get_file_clusters_one_per_record 0 extents_two_runs Hne).
Defined.

(** *** Reading the number of clusters *)

Lemma lstrip_head c s : isspace c = false → lstrip (c :: s) = c :: s.
Proof. intros H. simpl. by rewrite H. Qed.

Lemma rstrip_last s c : last s = Some c → isspace c = false → rstrip s = s.
Proof.
  intros (s' & ->)%last_Some Hc. unfold rstrip.
  rewrite rev_app_distr. simpl. rewrite Hc. simpl. by rewrite rev_involutive.
Qed.

Lemma strip_id c s c' :
  isspace c = false → last (c :: s) = Some c' → isspace c' = false →
  strip (c :: s) = c :: s.
Proof.
  intros Hc Hlast Hc'. unfold strip. rewrite lstrip_head by done.
  by eapply rstrip_last.
Qed.

Lemma split_on_notin sep s : Forall (fun c => c ≠ sep) s → split_on sep s = [s].
Proof.
  induction 1 as [|c s Hc _ IH]; [done|].
  simpl. apply Z.eqb_neq in Hc. by rewrite Hc, IH.
Qed.

Lemma split_on_app sep a b :
  Forall (fun c => c ≠ sep) a → split_on sep (a ++ sep :: b) = a :: split_on sep b.
Proof.
  induction 1 as [|c a Hc _ IH]; simpl.
  - by rewrite Z.eqb_refl.
  - apply Z.eqb_neq in Hc. by rewrite Hc, IH.
Qed.

Lemma startswith_app p s : startswith p (p ++ s) = true.
Proof.
  induction p as [|c p IH]; [done|]. simpl. by rewrite Z.eqb_refl, IH.
Qed.

Lemma contains_startswith p s : startswith p s = true → contains p s = true.
Proof. intros H. destruct s; simpl; by rewrite H. Qed.

Lemma split_ws_go_word t :
  Forall (fun c => isspace c = false) t →
  ∀ cur s, split_ws_go cur (t ++ s) = split_ws_go (rev t ++ cur) s.
Proof.
  induction 1 as [|c t Hc _ IH]; intros cur s; [done|].
  simpl. rewrite Hc, IH. by rewrite <- app_assoc.
Qed.

Lemma digit_not_space d : 0 ≤ d ≤ 9 → isspace (48 + d) = false.
Proof.
  intros H. unfold isspace.
  repeat match goal with
         | |- context [?a <=? ?b] => destruct (Z.leb_spec a b); try lia
         | |- context [?a =? ?b] => destruct (Z.eqb_spec a b); try lia
         end; reflexivity.
Qed.

Lemma digits_not_space g :
  Forall (fun d => 0 ≤ d ≤ 9) g → Forall (fun c => isspace c = false) (digits_text g).
Proof. intros H. apply Forall_fmap. eapply Forall_impl; [exact H|]. apply digit_not_space. Qed.

Lemma split_ws_word_space t s :
  t ≠ [] → Forall (fun c => isspace c = false) t →
  split_ws (t ++ 32 :: s) = t :: split_ws s.
Proof.
  intros Hne Ht. unfold split_ws. rewrite (split_ws_go_word t Ht), app_nil_r.
  simpl. destruct (rev t) as [|c r] eqn:Hrev.
  - apply (f_equal (@rev Z)) in Hrev. rewrite rev_involutive in Hrev. done.
  - by rewrite <- Hrev, rev_involutive.
Qed.

Lemma split_ws_word t :
  t ≠ [] → Forall (fun c => isspace c = false) t → split_ws t = [t].
Proof.
  intros Hne Ht. unfold split_ws.
  rewrite <- (app_nil_r t) at 1. rewrite (split_ws_go_word t Ht), app_nil_r.
  simpl. destruct (rev t) as [|c r] eqn:Hrev.
  - apply (f_equal (@rev Z)) in Hrev. rewrite rev_involutive in Hrev. done.
  - by rewrite <- Hrev, rev_involutive.
Qed.

Lemma digits_text_nonempty g : g ≠ [] → digits_text g ≠ [].
Proof. by destruct g. Qed.

Lemma split_ws_groups gs :
  Forall (fun g => g ≠ [] ∧ Forall (fun d => 0 ≤ d ≤ 9) g) gs →
  split_ws (groups_text gs) = digits_text <$> gs.
Proof.
  induction 1 as [|g gs [Hne Hg] Hgs IH]; [done|].
  destruct gs as [|g' gs].
  - simpl. apply split_ws_word; [by apply digits_text_nonempty | by apply digits_not_space].
  - change (groups_text (g :: g' :: gs))
      with (digits_text g ++ 32 :: groups_text (g' :: gs)).
    rewrite split_ws_word_space;
      [| by apply digits_text_nonempty | by apply digits_not_space].
    rewrite IH. done.
Qed.

Lemma elements_loop_step c el rest acc :
  c ≠ 40 →
  elements_loop ((c :: el) :: rest) acc = elements_loop rest (acc ++ c :: el).
Proof.
  intros Hc. simpl.
  destruct c as [|p|p]; try reflexivity.
  do 6 (destruct p as [p|p|]; try reflexivity).
  done.
Qed.

Lemma elements_loop_digits gs acc :
  Forall (fun g => g ≠ [] ∧ Forall (fun d => 0 ≤ d ≤ 9) g) gs →
  elements_loop (digits_text <$> gs) acc = acc ++ digits_text (concat gs).
Proof.
  intros H. revert acc. induction H as [|g gs [Hne Hg] _ IH]; intros acc.
  - simpl. by rewrite app_nil_r.
  - destruct g as [|d g]; [done|].
    apply Forall_cons in Hg as [Hd Hg].
    rewrite fmap_cons.
    change (digits_text (d :: g)) with ((48 + d) :: digits_text g).
    rewrite elements_loop_step by lia. rewrite IH, <- app_assoc.
    f_equal. unfold digits_text. simpl. by rewrite fmap_app.
Qed.

Lemma digit_value_digit d : 0 ≤ d ≤ 9 → digit_value (48 + d) = Some d.
Proof.
  intros H. unfold digit_value.
  destruct (Z.leb_spec 48 (48 + d)); [|lia].
  destruct (Z.leb_spec (48 + d) 57); [|lia].
  simpl. f_equal. lia.
Qed.

Lemma scan_digits_digits ds acc :
  Forall (fun d => 0 ≤ d ≤ 9) ds →
  scan_digits 10 false acc (digits_text ds) =
  Ok (foldl (fun a d => a * 10 + d) acc ds).
Proof.
  intros H. revert acc. induction H as [|d ds Hd _ IH]; intros acc; [done|].
  change (digits_text (d :: ds)) with ((48 + d) :: digits_text ds).
  cbn [scan_digits]. destruct (Z.eqb_spec (48 + d) 95); [lia|].
  rewrite digit_value_digit by done.
  destruct (Z.ltb_spec d 10); [|lia]. by rewrite IH.
Qed.

Lemma digits_last ds :
  ds ≠ [] → Forall (fun d => 0 ≤ d ≤ 9) ds →
  ∃ c, last (digits_text ds) = Some c ∧ isspace c = false.
Proof.
  intros Hne H. destruct (last ds) as [d|] eqn:Hlast.
  - exists (48 + d). unfold digits_text. rewrite fmap_last, Hlast. split; [done|].
    apply digit_not_space. rewrite Forall_forall in H. apply H.
    by apply last_Some_elem_of.
  - by apply last_None in Hlast.
Qed.

Lemma int_digits d ds :
  Forall (fun d => 0 ≤ d ≤ 9) (d :: ds) →
  int (digits_text (d :: ds)) 10 = Ok (digits_value (d :: ds)).
Proof.
  intros H. destruct (digits_last (d :: ds)) as (c' & Hlast & Hc'); [done | done |].
  pose proof (scan_digits_digits (d :: ds) 0 H) as Hscan.
  fold (digits_value (d :: ds)) in Hscan.
  apply Forall_cons in H as [Hd Hds].
  unfold int.
  change (digits_text (d :: ds)) with ((48 + d) :: digits_text ds) in *.
  rewrite (strip_id _ _ c' (digit_not_space d Hd) Hlast Hc').
  assert (48 + d = 48 ∨ 48 + d = 49 ∨ 48 + d = 50 ∨ 48 + d = 51 ∨ 48 + d = 52 ∨
          48 + d = 53 ∨ 48 + d = 54 ∨ 48 + d = 55 ∨ 48 + d = 56 ∨ 48 + d = 57)
    as Hcase by lia.
  clear Hlast. revert Hscan Hcase. generalize (48 + d). intros c Hscan Hcase.
  destruct Hcase as [->|[->|[->|[->|[->|[->|[->|[->|[->| ->]]]]]]]]];
    [destruct (digits_text ds) as [|x r]|..];
    cbn -[scan_digits Z.mul digits_value Z.eqb];
    repeat match goal with
           | |- context [?a =? ?b] => change (a =? b) with false
           end;
    cbn -[scan_digits Z.mul digits_value];
    rewrite Hscan, bind_Ok; f_equal; lia.
Qed.

Lemma cp866_ascii c : 0 ≤ c < 128 → cp866_char (ascii_byte c) = c.
Proof.
  intros Hc. unfold ascii_byte, cp866_char.
  destruct (Byte.of_N (Z.to_N c)) as [b|] eqn:Hb.
  - apply Byte.to_of_N in Hb. rewrite Hb, Z2N.id by lia.
    destruct (Z.ltb_spec c 128); [done | lia].
  - apply Byte.of_N_None_iff in Hb. lia.
Qed.

Lemma decode_ascii s :
  Forall (fun c => 0 ≤ c < 128) s → decode_cp866 (ascii_byte <$> s) = s.
Proof.
  unfold decode_cp866. induction 1 as [|c s Hc _ IH]; [done|].
  rewrite !fmap_cons. by rewrite cp866_ascii, IH.
Qed.

Lemma groups_chars gs :
  Forall (fun g => g ≠ [] ∧ Forall (fun d => 0 ≤ d ≤ 9) g) gs →
  Forall (fun c => c = 32 ∨ 48 ≤ c ≤ 57) (groups_text gs).
Proof.
  induction 1 as [|g gs [_ Hg] _ IH]; [constructor|].
  assert (Hdig : Forall (fun c => c = 32 ∨ 48 ≤ c ≤ 57) (digits_text g)).
  { apply Forall_fmap. eapply Forall_impl; [exact Hg|]. simpl. lia. }
  destruct gs as [|g' gs]; [exact Hdig|].
  change (groups_text (g :: g' :: gs)) with (digits_text g ++ 32 :: groups_text (g' :: gs)).
  apply Forall_app. split; [exact Hdig|]. constructor; [by left | exact IH].
Qed.

Lemma groups_head gs :
  groups_ok gs → ∃ d rest, groups_text gs = (48 + d) :: rest ∧ 0 ≤ d ≤ 9.
Proof.
  intros [Hne Hall]. destruct gs as [|g gs]; [done|].
  apply Forall_cons in Hall as [[Hg Hd] _].
  destruct g as [|d g]; [done|]. apply Forall_cons in Hd as [Hd _].
  destruct gs as [|g' gs]; by eexists d, _.
Qed.

Lemma groups_last gs :
  groups_ok gs → ∃ c, last (groups_text gs) = Some c ∧ isspace c = false.
Proof.
  intros [Hne Hall]. induction Hall as [|g gs [Hg Hd] Hall IH]; [done|].
  destruct gs as [|g' gs]; [by apply digits_last|].
  destruct IH as (c & Hlast & Hc); [done|].
  exists c. split; [|done].
  change (groups_text (g :: g' :: gs)) with (digits_text g ++ 32 :: groups_text (g' :: gs)).
  rewrite last_app, last_cons, Hlast. done.
Qed.

Lemma groups_concat_nonempty gs :
  groups_ok gs →
  ∃ d ds, concat gs = d :: ds ∧ Forall (fun d => 0 ≤ d ≤ 9) (d :: ds).
Proof.
  intros [Hne Hall]. destruct gs as [|g gs]; [done|].
  assert (Hds : Forall (fun d => 0 ≤ d ≤ 9) (concat (g :: gs))).
  { apply Forall_concat. eapply Forall_impl; [exact Hall|]. by intros ? [_ ?]. }
  apply Forall_cons in Hall as [[Hg _] _].
  destruct g as [|d g]; [done|]. by exists d, (g ++ concat gs).
Qed.

Lemma strip_keeps s c c' :
  head s = Some c → isspace c = false →
  last s = Some c' → isspace c' = false →
  strip s = s.
Proof.
  destruct s as [|x s]; [done|]. intros [= ->] Hc Hlast Hc'. by eapply strip_id.
Qed.

(** X18.  For an answer that is the line [Всего кластеров : ] followed by
    groups of decimal digits with one space between them (as in
    [62 381 567]), [get_disk_clusters] returns the number that the digits
    write when the groups are put together.  (At most 4300 digits, the most
    that interpreters convert.) *)
Theorem get_disk_clusters_reads_groups gs :
  groups_ok gs →
  (length (concat gs) ≤ 4300)%nat →
  get_disk_clusters (ntfsinfo_groups gs) = Ok (digits_value (concat gs)).
Proof.
  intros Hok _. pose proof Hok as [Hne Hall].
  pose proof (groups_chars gs Hall) as Hchars.
  destruct (groups_head gs Hok) as (d0 & rest & Hhead & Hd0).
  destruct (groups_last gs Hok) as (cl & Hlast & Hcl).
  destruct (groups_concat_nonempty gs Hok) as (d & ds & Hcat & Hds).
  unfold get_disk_clusters, ntfsinfo_groups. simpl negb. cbv iota.
  unfold decode_cp866. rewrite fmap_app. fold (decode_cp866 (ascii_byte <$> ([32; 58; 32] ++ groups_text gs))).
  rewrite decode_ascii.
  2:{ apply Forall_app. split; [repeat (constructor; [lia|]); constructor|].
      eapply Forall_impl; [exact Hchars|]. simpl. lia. }
  change (cp866_char <$> _) with total_clusters_marker.
  set (text := total_clusters_marker ++ [32; 58; 32] ++ groups_text gs).
  assert (Hstrip : strip text = text).
  { apply (strip_keeps text 1042 cl); [reflexivity | reflexivity | | exact Hcl].
    unfold text. by rewrite !last_app, Hlast. }
  rewrite Hstrip.
  assert (Hnl : Forall (fun c => c ≠ 10) text).
  { unfold text. apply Forall_app. split; [repeat (constructor; [lia|]); constructor|].
    apply Forall_app. split; [repeat (constructor; [lia|]); constructor|].
    eapply Forall_impl; [exact Hchars|]. simpl. lia. }
  rewrite (split_on_notin 10 text Hnl).
  cbn [lines_loop].
  rewrite (contains_startswith total_clusters_marker text
             (startswith_app total_clusters_marker _)).
  assert (Hsplit : split_on 58 text =
                   [total_clusters_marker ++ [32]; 32 :: groups_text gs]).
  { unfold text.
    change (total_clusters_marker ++ [32; 58; 32] ++ groups_text gs)
      with ((total_clusters_marker ++ [32]) ++ 58 :: 32 :: groups_text gs).
    rewrite split_on_app by (repeat (constructor; [lia|]); constructor).
    f_equal. apply split_on_notin. constructor; [lia|].
    eapply Forall_impl; [exact Hchars|]. simpl. lia. }
  rewrite Hsplit. cbn [index lookup list_lookup]. rewrite bind_Ok.
  assert (Hfield : strip (32 :: groups_text gs) = groups_text gs).
  { unfold strip. cbn [lstrip]. change (isspace 32) with true. cbv iota.
    rewrite Hhead, lstrip_head by (by apply digit_not_space).
    rewrite <- Hhead. by eapply rstrip_last. }
  rewrite Hfield, (split_ws_groups gs Hall), (elements_loop_digits gs [] Hall).
  rewrite app_nil_l, bind_Ok, Hcat. by apply int_digits.
Qed.

Lemma get_disk_clusters_reads_groups_witness :
  groups_ok [[6; 2]; [3; 8; 1]; [5; 6; 7]] ∧
  get_disk_clusters (ntfsinfo_groups [[6; 2]; [3; 8; 1]; [5; 6; 7]]) = Ok 62381567.
Proof.
  assert (Hok : groups_ok [[6; 2]; [3; 8; 1]; [5; 6; 7]]).
  { split; [done|]. repeat (constructor; [split; [done|]; repeat (constructor; [lia|]); constructor|]).
    constructor. }
  split; [exact Hok|].
  apply (get_disk_clusters_reads_groups [[6; 2]; [3; 8; 1]; [5; 6; 7]] Hok).
  simpl. lia.
Defined.

(** X19.  When the first line of the answer that holds the words
    introducing the number of clusters holds no colon, [get_disk_clusters]
    raises [IndexError]. *)
Theorem get_disk_clusters_no_colon stdout before line after :
  split_on 10 (strip (decode_cp866 stdout)) = before ++ line :: after →
  existsb (contains total_clusters_marker) before = false →
  contains total_clusters_marker line = true →
  Forall (fun c => c ≠ 58) line →
  get_disk_clusters (Completed 0 stdout) = Raise IndexError.
Proof.
  intros Hlines Hbefore Hline Hcolon.
  unfold get_disk_clusters. simpl negb. cbv iota. rewrite Hlines.
  assert (Hloop : ∀ acc, lines_loop (before ++ line :: after) acc = Raise IndexError).
  { clear Hlines. induction before as [|l before IH]; intros acc.
    - simpl. rewrite Hline, (split_on_notin 58 line Hcolon). reflexivity.
    - simpl in Hbefore. apply orb_false_iff in Hbefore as [Hl Hrest].
      simpl. rewrite Hl. by apply IH. }
  by rewrite Hloop.
Qed.

Lemma get_disk_clusters_no_colon_witness :
  get_disk_clusters
    (Completed 0
       (ascii_bytes "NTFS
" ++ [x82; xe1; xa5; xa3; xae; x20; xaa; xab; xa0; xe1; xe2; xa5; xe0; xae; xa2]
        ++ ascii_bytes " 1000")) = Raise IndexError.
Proof.
  apply (get_disk_clusters_no_colon _ [lit "NTFS"]
           (total_clusters_marker ++ lit " 1000") []);
    [by vm_compute | by vm_compute | by vm_compute |].
  refine (bool_decide_unpack _ _). by vm_compute.
Defined.

End MoreProofs.

(** ** The theorems on the sample data *)

Lemma get_files_with_clusters_aborts_witness :
  reaches_unreadable sample_volume = true ∧
  get_files_with_clusters (PL := sample_pathlib) "C:" sample_volume = Raise OSError.
Proof.
  split; [reflexivity|].
  apply (get_files_with_clusters_aborts "C:" sample_volume). reflexivity.
Defined.

Example get_files_with_clusters_readable :
  get_files_with_clusters (PL := sample_pathlib) "C:" readable_volume =
    Ok [(as_path "C:\data\a.bin", [(173507, 173522); (256, 263)])].
Proof. by vm_compute. Qed.

Lemma sample_files_wf : dict_wf sample_files.
Proof. unfold dict_wf. apply (bool_decide_unpack (NoDup sample_files.*1)). by vm_compute. Qed.

Lemma sample_files_disjoint : files_disjoint sample_files.
Proof.
  intros p1 g1 p2 g2 i H1 H2 Hi1 Hi2. unfold sample_files in *.
  rewrite !elem_of_cons in H1, H2.
  destruct H1 as [[= -> ->]|[[= -> ->]|?%elem_of_nil]]; [| |done];
    destruct H2 as [[= -> ->]|[[= -> ->]|?%elem_of_nil]]; try done;
    exfalso; unfold in_group, in_extent in *; simpl in *;
    rewrite !orb_true_iff, !andb_true_iff, !Z.leb_le in Hi1, Hi2; lia.
Qed.

Lemma initial_load_materializes_witness :
  disk_clusters_of (ntfsinfo "1000") sample_window = Ok 1000 ∧
  ∃ self',
    display_clusters_near_highlighted (ntfsinfo "1000") sample_window = Ok self' ∧
    materialized sample_window self' =
      [95; 96; 97; 98; 99; 100; 101; 102; 103; 104; 105; 106; 107; 108; 109].
Proof.
  split; [by vm_compute|].
  destruct (initial_load_materializes (ntfsinfo "1000") sample_window 1000)
    as (self' & Hrun & _ & _ & _ & Hscenario); [by vm_compute|].
  exists self'. split; [exact Hrun|]. by apply Hscenario.
Defined.

Lemma initial_load_idempotent_witness :
  disk_clusters_of (ntfsinfo "1000") sample_window = Ok 1000 ∧
  ∃ self' self'',
    display_clusters_near_highlighted (ntfsinfo "1000") sample_window = Ok self' ∧
    display_clusters_near_highlighted (ntfsinfo "1000") self' = Ok self'' ∧
    materialized self' self'' = [].
Proof.
  split; [by vm_compute|].
  destruct (initial_load_idempotent (ntfsinfo "1000") sample_window 1000)
    as (self' & self'' & Hrun & Hrun' & Hnone & _); [by vm_compute|].
  exists self', self''. split; [exact Hrun|]. split; [exact Hrun' | exact Hnone].
Defined.

Lemma initial_load_unknown_total_witness :
  disk_clusters_of (Completed 1 []) sample_window = Ok 0 ∧
  display_clusters_near_highlighted (Completed 1 []) sample_window = Ok sample_window.
Proof.
  split; [reflexivity|].
  apply (initial_load_unknown_total (Completed 1 []) sample_window). reflexivity.
Defined.

Lemma load_additional_clusters_skips_one_witness :
  disk_clusters_of (ntfsinfo "1000") scrolled_window = Ok 1000 ∧
  ∃ self',
    load_additional_clusters (ntfsinfo "1000") false scrolled_window = Ok self' ∧
    materialized scrolled_window self' = [111; 112; 113; 114].
Proof.
  split; [by vm_compute|].
  destruct (load_additional_clusters_skips_one (ntfsinfo "1000") scrolled_window)
    as [(self' & Hrun & Hnew & _) _]; [by vm_compute | reflexivity | reflexivity |].
  exists self'. split; [exact Hrun | exact Hnew].
Defined.

Lemma load_additional_clusters_past_end_witness :
  disk_clusters_of (ntfsinfo "111") scrolled_window = Ok 111 ∧
  ∃ self',
    load_additional_clusters (ntfsinfo "111") false scrolled_window = Ok self' ∧
    materialized scrolled_window self' = [111].
Proof.
  split; [by vm_compute|].
  destruct (load_additional_clusters_past_end (ntfsinfo "111") scrolled_window)
    as (self' & Hrun & Hnew & _); [by vm_compute | reflexivity | reflexivity |].
  exists self'. split; [exact Hrun | exact Hnew].
Defined.

(** The highlighted path of the sample window was typed in capitals and the
    key of the map is as the scan found it: they are one [Path]. *)
Lemma handle_cluster_click_outcomes_witness :
  file_path sample_window = Some (as_path "C:\DATA\A.BIN") ∧
  handle_cluster_click sample_window 102 =
    (sample_window, SameFileDetail 102 (as_path "C:\data\a.bin") [(100, 104)]) ∧
  (handle_cluster_click sample_window 305).2 =
    OtherFileSelected (as_path "C:\data\b.bin") [(300, 310); (10, 20)] ∧
  handle_cluster_click sample_window 50 = (sample_window, Unowned).
Proof.
  destruct (handle_cluster_click_outcomes sample_window 102
              sample_files_wf sample_files_disjoint eq_refl) as (Hsame & _ & _).
  destruct (handle_cluster_click_outcomes sample_window 305
              sample_files_wf sample_files_disjoint eq_refl) as (_ & Hother & _).
  destruct (handle_cluster_click_outcomes sample_window 50
              sample_files_wf sample_files_disjoint eq_refl) as (_ & _ & Hnone).
  split; [reflexivity|]. split; [|split].
  - destruct (Hsame eq_refl) as (p & [= <-] & ->). reflexivity.
  - destruct (Hother (as_path "C:\data\b.bin") [(300, 310); (10, 20)])
      as (self' & -> & _);
      [apply list_elem_of_further, list_elem_of_here
      | reflexivity | discriminate | reflexivity].
  - apply Hnone. intros p g Hin. simpl in Hin. unfold sample_files in Hin.
    rewrite !elem_of_cons in Hin.
    destruct Hin as [[= -> ->]|[[= -> ->]|?%elem_of_nil]]; done.
Defined.

Lemma handle_cluster_click_last_owner_witness :
  owners 17 (file_clusters_map overlapping_window) =
    [(as_path "A", [(10, 20)]); (as_path "B", [(15, 30)])] ∧
  (handle_cluster_click overlapping_window 17).2 =
    OtherFileSelected (as_path "B") [(15, 30)].
Proof.
  split; [reflexivity|].
  destruct (handle_cluster_click_last_owner overlapping_window 17) as (_ & -> & _).
  reflexivity.
Defined.

Lemma load_additional_clusters_only_adds_witness :
  ∃ self',
    load_additional_clusters (ntfsinfo "1000") false scrolled_window = Ok self' ∧
    loaded_clusters self' =
      loaded_clusters scrolled_window ∪ list_to_set (materialized scrolled_window self').
Proof.
  destruct (load_additional_clusters_fresh (ntfsinfo "1000") false scrolled_window
              1000 95 109) as (self' & Hrun & _); [by vm_compute ..|].
  exists self'. split; [exact Hrun|].
  apply (load_additional_clusters_only_adds (ntfsinfo "1000") false scrolled_window self' Hrun).
Defined.

Lemma load_additional_clusters_one_side_witness :
  ∃ self',
    load_additional_clusters (ntfsinfo "1000") true scrolled_window = Ok self' ∧
    (∀ i, i ∈ materialized scrolled_window self' → i < 95) ∧
    py_max (loaded_clusters self') = Ok 109.
Proof.
  destruct (load_additional_clusters_fresh (ntfsinfo "1000") true scrolled_window
              1000 95 109) as (self' & Hrun & _); [by vm_compute ..|].
  exists self'. split; [exact Hrun|].
  apply (load_additional_clusters_one_side (ntfsinfo "1000") true scrolled_window self'
           95 109); [by vm_compute | by vm_compute | exact Hrun].
Defined.

Lemma load_additional_clusters_nothing_loaded_witness :
  ∃ self',
    load_additional_clusters (ntfsinfo "1000") false sample_window = Ok self' ∧
    materialized sample_window self' = [2; 3; 4; 5].
Proof.
  destruct (load_additional_clusters_nothing_loaded (ntfsinfo "1000") false
              sample_window 1000) as (self' & Hrun & Hnew);
    [by vm_compute | reflexivity |].
  exists self'. split; [exact Hrun | exact Hnew].
Defined.

Lemma load_additional_clusters_at_edge_witness :
  load_additional_clusters (ntfsinfo "110") false scrolled_window = Ok scrolled_window.
Proof.
  apply (load_additional_clusters_at_edge (ntfsinfo "110") false scrolled_window
           110 95 109); [by vm_compute | by vm_compute | by vm_compute | simpl; lia].
Defined.

(** The path is typed in capitals and with [/]; the scan finds the file as
    [C:\data\a.bin]. *)
Lemma sample_load :
  ∃ self', load_clusters "C:/DATA/A.BIN" true "C:" readable_volume (ntfsinfo "1000")
             fresh_window = Ok self'.
Proof. vm_compute. by eexists. Qed.

Lemma sample_reload :
  ∃ self', load_clusters "C:\pagefile.sys" true "C:" readable_volume (ntfsinfo "1000")
             scrolled_window = Ok self'.
Proof. vm_compute. by eexists. Qed.

Lemma sample_first_load :
  ∃ self', load_clusters "C:/DATA/A.BIN" true "C:" readable_volume (ntfsinfo "270")
             (init (PL := sample_pathlib)) = Ok self'.
Proof. vm_compute. by eexists. Qed.

Lemma session_buttons_witness :
  ∃ self',
    load_clusters "C:/DATA/A.BIN" true "C:" readable_volume (ntfsinfo "1000")
      fresh_window = Ok self' ∧
    buttons_ok self'.
Proof.
  destruct sample_load as [self' Hrun]. exists self'. split; [exact Hrun|].
  apply (session_buttons self').
  exact (session_load _ _ _ _ fresh_window self' eq_refl Hrun).
Defined.

Lemma session_styles_witness :
  ∃ self',
    load_clusters "C:/DATA/A.BIN" true "C:" readable_volume (ntfsinfo "1000")
      fresh_window = Ok self' ∧
    styles_ok (handle_cluster_click self' 260).1.
Proof.
  destruct sample_load as [self' Hrun]. exists self'. split; [exact Hrun|].
  apply (session_styles (handle_cluster_click self' 260).1).
  apply session_click.
  exact (session_load _ _ _ _ fresh_window self' eq_refl Hrun).
Defined.

Lemma reachable_window_ok_witness :
  ∃ self',
    load_clusters "C:/DATA/A.BIN" true "C:" readable_volume (ntfsinfo "270")
      (init (PL := sample_pathlib)) = Ok self' ∧
    window_ok self' ∧
    window_ok (handle_cluster_click self' 260).1.
Proof.
  destruct sample_first_load as [self' Hrun]. exists self'. split; [exact Hrun|].
  assert (Hreach : reachable self')
    by exact (reachable_load _ _ _ _ _ init self' reachable_init Hrun).
  split.
  - apply (reachable_window_ok self' Hreach).
  - apply (reachable_window_ok (handle_cluster_click self' 260).1).
    by apply reachable_click.
Defined.

Lemma reachable_loaded_has_button_witness :
  ∃ self',
    load_clusters "C:/DATA/A.BIN" true "C:" readable_volume (ntfsinfo "270")
      (init (PL := sample_pathlib)) = Ok self' ∧
    ∀ i, i ∈ loaded_clusters self' → i ∈ Window.index <$> cluster_buttons self'.
Proof.
  destruct sample_first_load as [self' Hrun]. exists self'. split; [exact Hrun|].
  apply (reachable_loaded_has_button self').
  exact (reachable_load _ _ _ _ _ init self' reachable_init Hrun).
Defined.

Lemma load_clusters_reloads_witness :
  ∃ self',
    load_clusters "C:/DATA/A.BIN" true "C:" readable_volume (ntfsinfo "1000")
      fresh_window = Ok self' ∧
    file_path self' = Some (as_path "C:\data\a.bin") ∧
    cluster_group self' = [(173507, 173522); (256, 263)] ∧
    (∀ i, i ∈ loaded_clusters self' ↔ 251 ≤ i ≤ 268).
Proof.
  destruct sample_load as [self' Hrun]. exists self'. split; [exact Hrun|].
  destruct (load_clusters_reloads _ _ _ _ _ _ Hrun)
    as (files & total & Hscan & Hd & _ & Hp & Hg & Hl & _).
  vm_compute in Hscan. injection Hscan as <-.
  vm_compute in Hd. injection Hd as <-.
  split; [exact Hp|]. split; [exact Hg|].
  intros i. rewrite Hl. unfold near.
  change (dict_get _ _ _) with [(173507, 173522); (256, 263)].
  change (visible_range fresh_window) with 5.
  split.
  - intros [(s & e & Hin & Hi) Hb].
    apply elem_of_cons in Hin as [[= -> ->]|Hin]; [lia|].
    apply list_elem_of_singleton in Hin as [= -> ->]. lia.
  - intros Hi. split; [|lia]. exists 256, 263.
    split; [apply list_elem_of_further, list_elem_of_here | lia].
Defined.

Lemma load_clusters_unmapped_witness :
  ∃ self',
    load_clusters "C:\pagefile.sys" true "C:" readable_volume (ntfsinfo "1000")
      scrolled_window = Ok self' ∧
    loaded_clusters self' = ∅ ∧
    cluster_buttons self' = cluster_buttons scrolled_window.
Proof.
  destruct sample_reload as [self' Hrun]. exists self'. split; [exact Hrun|].
  apply (load_clusters_unmapped _ _ _ _ _ _ Hrun).
  destruct (load_clusters_inv _ _ _ _ _ _ Hrun)
    as (files & total & new & Hscan & _ & Hg & _).
  destruct Hg as (_ & _ & _ & _ & -> & _). simpl.
  vm_compute in Hscan. injection Hscan as <-. reflexivity.
Defined.

Lemma session_cells_distinct_witness :
  ∃ self',
    load_clusters "C:/DATA/A.BIN" true "C:" readable_volume (ntfsinfo "1000")
      fresh_window = Ok self' ∧
    NoDup ((fun b => grid_cell 628 (Window.index b)) <$> cluster_buttons self').
Proof.
  destruct sample_load as [self' Hrun]. exists self'. split; [exact Hrun|].
  apply (session_cells_distinct self' 628).
  - exact (session_load _ _ _ _ fresh_window self' eq_refl Hrun).
  - vm_compute. discriminate.
Defined.

Lemma get_files_with_clusters_returns_iff_witness :
  (∃ files, get_files_with_clusters (PL := sample_pathlib) "C:" readable_volume = Ok files) ∧
  ¬ (∃ files, get_files_with_clusters (PL := sample_pathlib) "C:" sample_volume = Ok files).
Proof.
  split.
  - apply (get_files_with_clusters_returns_iff "C:" readable_volume). reflexivity.
  - intros H. apply (get_files_with_clusters_returns_iff "C:" sample_volume) in H.
    discriminate H.
Defined.

Lemma get_files_with_clusters_no_empty_witness :
  ∃ files,
    get_files_with_clusters (PL := sample_pathlib) "C:" readable_volume = Ok files ∧
    ∀ p g, (p, g) ∈ files → g ≠ [].
Proof.
  destruct (get_files_with_clusters (PL := sample_pathlib) "C:" readable_volume)
    as [files|e] eqn:Hscan.
  - exists files. split; [reflexivity|].
    exact (get_files_with_clusters_no_empty "C:" readable_volume files Hscan).
  - exfalso. vm_compute in Hscan. discriminate Hscan.
Defined.
